(** * Mapping store of DAKOSYS ([mappings_manager.py])

    A shallow embedding of the module that loads, saves and migrates the
    name-mapping tables kept in [mappings.yaml] and [config.yaml].

    - YAML values are an inductive type; Python dicts are [gmap]s keyed by
      strings (dict equality and [yaml.dump], which sorts keys, are both
      insensitive to insertion order).
    - The two files and the outcome of I/O on them form the [world]; a file
      holds the value [yaml.safe_load] yields for it, so [yaml.dump] followed
      by [yaml.safe_load] is the identity on the values modelled here.
    - Python exceptions are an error monad layered over the world; state
      changes made before a [raise] survive it, as in Python.
    - A document is a tree: YAML in which two keys share one node through
      an anchor is outside the model.
    - A file that cannot be read keeps what is written to it out of sight;
      a write that fails after the file was opened leaves it truncated.
    - [str.title] is modelled on ASCII text: statements about a title-cased
      string carry the hypothesis that the string is ASCII. *)

From Stdlib Require Import Ascii String.
From stdpp Require Import gmap strings list fin_maps.

Set Warnings "-register-all".
Local Open Scope string_scope.

(** ** Strings: the [str] methods used by [get_plex_name] *)

Module PyStr.

Definition is_upper (c : ascii) : bool :=
  let n := nat_of_ascii c in (65 <=? n)%nat && (n <=? 90)%nat.

Definition is_lower (c : ascii) : bool :=
  let n := nat_of_ascii c in (97 <=? n)%nat && (n <=? 122)%nat.

Definition is_cased (c : ascii) : bool := is_upper c || is_lower c.

Definition upper (c : ascii) : ascii :=
  if is_lower c then ascii_of_nat (nat_of_ascii c - 32) else c.

Definition lower (c : ascii) : ascii :=
  if is_upper c then ascii_of_nat (nat_of_ascii c + 32) else c.

(** [s.title()]: a cased character is upper-cased when the character
    before it is not cased, and lower-cased otherwise. *)
Fixpoint title_from (previous_is_cased : bool) (s : string) : string :=
  match s with
  | EmptyString => EmptyString
  | String c rest =>
      String (if previous_is_cased then lower c else upper c)
             (title_from (is_cased c) rest)
  end.

Definition title (s : string) : string := title_from false s.

(** [s.replace(old, new)] for single characters. *)
Fixpoint replace (old new : ascii) (s : string) : string :=
  match s with
  | EmptyString => EmptyString
  | String c rest =>
      String (if Ascii.eqb c old then new else c) (replace old new rest)
  end.

Fixpoint starts_with (p s : string) : bool :=
  match p, s with
  | EmptyString, _ => true
  | String _ _, EmptyString => false
  | String a p', String b s' => Ascii.eqb a b && starts_with p' s'
  end.

(** [p in s] on two strings: substring test. *)
Fixpoint contains (p s : string) : bool :=
  starts_with p s ||
  match s with
  | EmptyString => false
  | String _ s' => contains p s'
  end.

(** Every character of [s] is ASCII; on such a string the functions above
    are [str.title], [str.replace] and [in] of Python. *)
Fixpoint is_ascii (s : string) : bool :=
  match s with
  | EmptyString => true
  | String c rest => (nat_of_ascii c <? 128)%nat && is_ascii rest
  end.

Definition hyphen : ascii := "-"%char.
Definition space : ascii := " "%char.

End PyStr.

(** ** YAML values and Python's operations on them *)

Inductive yaml : Type :=
| YNull
| YBool (b : bool)
| YInt (z : Z)
| YStr (s : string)
| YList (l : list yaml)
| YMap (m : gmap string yaml).

Inductive exn : Type :=
| FileNotFoundError
| PermissionError
| OSError
| YAMLError
| TypeError
| AttributeError
| KeyError.

Inductive res (A : Type) : Type :=
| Ok (a : A)
| Raise (e : exn).
Arguments Ok {A} a.
Arguments Raise {A} e.

Module Py.

Definition bind {A B} (r : res A) (k : A -> res B) : res B :=
  match r with
  | Ok a => k a
  | Raise e => Raise e
  end.

Declare Scope py_scope.
Delimit Scope py_scope with py.
Notation "x <- r ;; k" := (bind r (fun x => k))
  (at level 100, r at next level, right associativity) : py_scope.
Local Open Scope py_scope.

Definition empty_dict : yaml := YMap ∅.

Definition is_none (v : yaml) : bool :=
  match v with YNull => true | _ => false end.

(** [s == v] for a string [s]. *)
Definition str_eq (s : string) (v : yaml) : bool :=
  match v with
  | YStr t => bool_decide (s = t)
  | _ => false
  end.

(** [k in v]: key membership on a dict, substring on a str, element
    membership on a list, [TypeError] on anything else. *)
Definition contains (k : string) (v : yaml) : res bool :=
  match v with
  | YMap m => Ok (bool_decide (is_Some (m !! k)))
  | YStr s => Ok (PyStr.contains k s)
  | YList l => Ok (existsb (str_eq k) l)
  | _ => Raise TypeError
  end.

(** [v[k]] for a string [k]. *)
Definition getitem (v : yaml) (k : string) : res yaml :=
  match v with
  | YMap m => match m !! k with Some x => Ok x | None => Raise KeyError end
  | _ => Raise TypeError
  end.

(** [v[k] = x] for a string [k]. *)
Definition setitem (v : yaml) (k : string) (x : yaml) : res yaml :=
  match v with
  | YMap m => Ok (YMap (<[k := x]> m))
  | _ => Raise TypeError
  end.

(** [del v[k]] for a string [k]. *)
Definition delitem (v : yaml) (k : string) : res yaml :=
  match v with
  | YMap m => match m !! k with
              | Some _ => Ok (YMap (delete k m))
              | None => Raise KeyError
              end
  | _ => Raise TypeError
  end.

(** [v.get(k, default)]: only dicts have the method. *)
Definition get (v : yaml) (k : string) (dflt : yaml) : res yaml :=
  match v with
  | YMap m => Ok (default dflt (m !! k))
  | _ => Raise AttributeError
  end.

(** The object [v[k]] is mutated in place by [f]: the parent sees the
    change because it holds a reference to the same object. *)
Definition update (v : yaml) (k : string) (f : yaml -> res yaml) : res yaml :=
  x <- getitem v k ;;
  x' <- f x ;;
  setitem v k x'.

(** [if k not in v: v[k] = {}] *)
Definition ensure_key (k : string) (v : yaml) : res yaml :=
  present <- contains k v ;;
  if negb present then setitem v k empty_dict else Ok v.

(** [if k not in v or v[k] is None: v[k] = {}] *)
Definition ensure_not_none (k : string) (v : yaml) : res yaml :=
  present <- contains k v ;;
  missing <- (if negb present then Ok true
              else x <- getitem v k ;; Ok (is_none x)) ;;
  if (missing : bool) then setitem v k empty_dict else Ok v.

(** [if k in v: del v[k]] *)
Definition remove_key (k : string) (v : yaml) : res yaml :=
  present <- contains k v ;;
  if (present : bool) then delitem v k else Ok v.

(** [v.replace('-', ' ').title()]: only strs have the methods. *)
Definition replace_title (v : yaml) : res yaml :=
  match v with
  | YStr s => Ok (YStr (PyStr.title (PyStr.replace PyStr.hyphen PyStr.space s)))
  | _ => Raise AttributeError
  end.

End Py.

(** ** The world: two files, the outcome of writes, and the log *)

Inductive path : Type := MAPPINGS_FILE | CONFIG_FILE.

(** A file: no such file; a file that cannot be opened for reading, with
    what its text parses to, if it is YAML ([on_disk], which no operation
    can see); text that is not YAML; or a readable file with the value
    [yaml.safe_load] returns for it. *)
Inductive file : Type :=
| Absent
| Unreadable (on_disk : option yaml)
| Malformed
| Content (v : yaml).

(** How a write that does not go through fails: [open(p, 'w')] raises and
    the file is as before, or [yaml.dump] raises after the file was opened,
    and truncated, leaving text that parses to [remains] if it is YAML. *)
Inductive write_failure : Type :=
| OpenFails
| DumpFails (remains : option yaml).

Inductive message : Type :=
| ErrLoadMappings      (* "Error loading mappings from {MAPPINGS_FILE}" *)
| InfoNotFound         (* "Mappings file not found, loading from config..." *)
| InfoAutoMigrated     (* "Automatically migrated mappings ..." *)
| ErrLoadConfig        (* "Error loading mappings from config" *)
| InfoSaved            (* "Saved mappings to {MAPPINGS_FILE}" *)
| InfoUpdatedConfig    (* "Updated {CONFIG_FILE} to remove migrated mappings" *)
| ErrUpdateConfig      (* "Error updating config after migration" *)
| ErrSave              (* "Error saving mappings" *)
| ErrAddPlex           (* "Error adding Plex mapping" *)
| ErrAddTitle          (* "Error adding title mapping" *)
| ErrTraceback         (* the text of [traceback.format_exc()] *)
| ErrMigrate.          (* "Error migrating mappings" *)

Inductive log_event : Type :=
| LogInfo (m : message)
| LogError (m : message) (e : exn).

(** [dir_ok]: [os.makedirs(CONFIG_DIR, exist_ok=True)] succeeds;
    [mappings_writable], [config_writable]: opening the file for writing
    and dumping to it succeeds; [mappings_failure], [config_failure]: how
    the write fails when it does not.  The log grows at its head. *)
Record world : Type := mkWorld {
  mappings_file : file;
  config_file : file;
  dir_ok : bool;
  mappings_writable : bool;
  config_writable : bool;
  log : list log_event;
  mappings_failure : write_failure;
  config_failure : write_failure
}.

Definition file_at (p : path) (w : world) : file :=
  match p with
  | MAPPINGS_FILE => mappings_file w
  | CONFIG_FILE => config_file w
  end.

Definition writable (p : path) (w : world) : bool :=
  match p with
  | MAPPINGS_FILE => mappings_writable w
  | CONFIG_FILE => config_writable w
  end.

Definition failure (p : path) (w : world) : write_failure :=
  match p with
  | MAPPINGS_FILE => mappings_failure w
  | CONFIG_FILE => config_failure w
  end.

Definition set_file (p : path) (f : file) (w : world) : world :=
  match p with
  | MAPPINGS_FILE =>
      mkWorld f (config_file w) (dir_ok w) (mappings_writable w)
              (config_writable w) (log w)
              (mappings_failure w) (config_failure w)
  | CONFIG_FILE =>
      mkWorld (mappings_file w) f (dir_ok w) (mappings_writable w)
              (config_writable w) (log w)
              (mappings_failure w) (config_failure w)
  end.

Definition add_log (ev : log_event) (w : world) : world :=
  mkWorld (mappings_file w) (config_file w) (dir_ok w) (mappings_writable w)
          (config_writable w) (ev :: log w)
          (mappings_failure w) (config_failure w).

(** The file [old] once text that parses to [text] (or does not parse) has
    been written over it: a file that cannot be read stays so. *)
Definition overwrite (old : file) (text : option yaml) : file :=
  match old with
  | Unreadable _ => Unreadable text
  | _ => match text with
         | Some v => Content v
         | None => Malformed
         end
  end.

(** ** Computations that read and write the world and may raise *)

Definition M (A : Type) : Type := world -> res A * world.

Definition ret {A} (a : A) : M A := fun w => (Ok a, w).

Definition raise {A} (e : exn) : M A := fun w => (Raise e, w).

Definition bind {A B} (c : M A) (k : A -> M B) : M B :=
  fun w =>
    match c w with
    | (Ok a, w') => k a w'
    | (Raise e, w') => (Raise e, w')
    end.

(** [try: body  except Exception as e: handler(e)] *)
Definition try_except {A} (body : M A) (handler : exn -> M A) : M A :=
  fun w =>
    match body w with
    | (Ok a, w') => (Ok a, w')
    | (Raise e, w') => handler e w'
    end.

Definition lift {A} (r : res A) : M A := fun w => (r, w).

Declare Scope io_scope.
Delimit Scope io_scope with io.
Notation "x <- c ;; k" := (bind c (fun x => k))
  (at level 100, c at next level, right associativity) : io_scope.
Notation "c ;;; k" := (bind c (fun _ => k))
  (at level 100, right associativity) : io_scope.
Notation "'try' body 'except' e => handler" :=
  (try_except body (fun e => handler))
  (at level 100, e name, body at level 200, handler at level 200) : io_scope.
Local Open Scope io_scope.

(** [os.path.exists(p)] *)
Definition path_exists (p : path) : M bool :=
  fun w => (Ok (match file_at p w with Absent => false | _ => true end), w).

(** [with open(p, 'r') as file: yaml.safe_load(file)] *)
Definition read_yaml (p : path) : M yaml :=
  fun w =>
    match file_at p w with
    | Absent => (Raise FileNotFoundError, w)
    | Unreadable _ => (Raise PermissionError, w)
    | Malformed => (Raise YAMLError, w)
    | Content v => (Ok v, w)
    end.

(** [with open(p, 'w') as file: yaml.dump(v, file)] *)
Definition write_yaml (p : path) (v : yaml) : M unit :=
  fun w =>
    if writable p w
    then (Ok tt, set_file p (overwrite (file_at p w) (Some v)) w)
    else match failure p w with
         | OpenFails => (Raise PermissionError, w)
         | DumpFails remains =>
             (Raise OSError, set_file p (overwrite (file_at p w) remains) w)
         end.

(** [os.makedirs(os.path.dirname(MAPPINGS_FILE), exist_ok=True)] *)
Definition makedirs : M unit :=
  fun w => if dir_ok w then (Ok tt, w) else (Raise PermissionError, w).

Definition logger_info (m : message) : M unit :=
  fun w => (Ok tt, add_log (LogInfo m) w).

Definition logger_error (m : message) (e : exn) : M unit :=
  fun w => (Ok tt, add_log (LogError m e) w).

(** ** The operations of [mappings_manager.py] *)

(** The first two statements of [save_mappings]: the write of the
    mappings file itself. *)
Definition write_mappings_file (mappings : yaml) : M unit :=
  makedirs ;;;
  write_yaml MAPPINGS_FILE mappings.

(** The inner [try] body of [save_mappings]. *)
Definition remove_mappings_from_config : M unit :=
  config <- read_yaml CONFIG_FILE ;;
  config <- lift (Py.remove_key "mappings" config) ;;
  config <- lift (Py.remove_key "trakt_mappings" config) ;;
  config <- lift (Py.remove_key "title_mappings" config) ;;
  write_yaml CONFIG_FILE config ;;;
  logger_info InfoUpdatedConfig.

(** The inner [try ... except] of [save_mappings]. *)
Definition update_config : M unit :=
  try remove_mappings_from_config
  except e => logger_error ErrUpdateConfig e.

Definition save_mappings (mappings : yaml) (migrate_from_config : bool) : M bool :=
  try
    write_mappings_file mappings ;;;
    logger_info InfoSaved ;;;
    config_exists <- (if migrate_from_config then path_exists CONFIG_FILE
                      else ret false) ;;
    (if (config_exists : bool) then update_config else ret tt) ;;;
    ret true
  except e =>
    logger_error ErrSave e ;;;
    ret false.

Definition empty_document : yaml :=
  YMap (<["title_mappings" := Py.empty_dict]>
        (<["trakt_mappings" := Py.empty_dict]>
         (<["mappings" := Py.empty_dict]> ∅))).

(** The body of the first [try] of [load_mappings]. *)
Definition load_from_mappings_file : M yaml :=
  mappings <- read_yaml MAPPINGS_FILE ;;
  mappings <- lift (Py.ensure_key "mappings" mappings) ;;
  mappings <- lift (Py.ensure_key "trakt_mappings" mappings) ;;
  mappings <- lift (Py.ensure_key "title_mappings" mappings) ;;
  ret mappings.

(** The document built from the three [config.get(section, {})] results. *)
Definition synthesize (m t ti : yaml) : yaml :=
  YMap (<["title_mappings" := ti]>
        (<["trakt_mappings" := t]>
         (<["mappings" := m]> ∅))).

(** The body of the second [try] of [load_mappings]. *)
Definition load_from_config : M yaml :=
  config <- read_yaml CONFIG_FILE ;;
  m <- lift (Py.get config "mappings" Py.empty_dict) ;;
  t <- lift (Py.get config "trakt_mappings" Py.empty_dict) ;;
  ti <- lift (Py.get config "title_mappings" Py.empty_dict) ;;
  let mappings := synthesize m t ti in
  save_mappings mappings true ;;;
  logger_info InfoAutoMigrated ;;;
  ret mappings.

(** Everything of [load_mappings] below the first [if]. *)
Definition fallback_to_config : M yaml :=
  logger_info InfoNotFound ;;;
  try load_from_config
  except e =>
    logger_error ErrLoadConfig e ;;;
    ret empty_document.

Definition load_mappings : M yaml :=
  file_exists <- path_exists MAPPINGS_FILE ;;
  loaded <- (if (file_exists : bool) then
               try (mappings <- load_from_mappings_file ;; ret (Some mappings))
               except e =>
                 logger_error ErrLoadMappings e ;;;
                 ret None
             else ret None) ;;
  match loaded with
  | Some mappings => ret mappings
  | None => fallback_to_config
  end.

Definition add_plex_mapping (afl_name plex_name : string) : M bool :=
  try
    mappings <- load_mappings ;;
    mappings <- lift (Py.ensure_key "mappings" mappings) ;;
    mappings <- lift (Py.update mappings "mappings"
                        (fun section => Py.setitem section afl_name (YStr plex_name))) ;;
    save_mappings mappings false
  except e =>
    logger_error ErrAddPlex e ;;;
    ret false.

(** The four statements of [add_title_mapping] between the load and the
    save: they fill in the path down to [special_matches] and set the
    entry. *)
Definition set_special_match (anime_name episode_title trakt_title : string)
    (mappings : yaml) : res yaml :=
  Py.bind (Py.ensure_not_none "title_mappings" mappings) (fun mappings =>
  Py.update mappings "title_mappings" (fun titles =>
    Py.bind (Py.ensure_key anime_name titles) (fun titles =>
    Py.update titles anime_name (fun show =>
      Py.bind (Py.ensure_not_none "special_matches" show) (fun show =>
      Py.update show "special_matches" (fun matches =>
        Py.setitem matches episode_title (YStr trakt_title))))))).

Definition add_title_mapping (anime_name episode_title trakt_title : string) : M bool :=
  try
    mappings <- load_mappings ;;
    mappings <- lift (set_special_match anime_name episode_title trakt_title
                        mappings) ;;
    save_mappings mappings false
  except e =>
    logger_error ErrAddTitle e ;;;
    logger_error ErrTraceback e ;;;
    ret false.

Definition migrate_mappings_from_config : M bool :=
  try
    mappings <- load_mappings ;;
    save_mappings mappings true
  except e =>
    logger_error ErrMigrate e ;;;
    ret false.

Definition get_mappings : M yaml := load_mappings.

Definition get_plex_name (afl_name : string) : M yaml :=
  mappings <- load_mappings ;;
  section <- lift (Py.get mappings "mappings" Py.empty_dict) ;;
  plex_name <- lift (Py.get section afl_name (YStr afl_name)) ;;
  has_hyphen <- lift (Py.contains "-" plex_name) ;;
  if (has_hyphen : bool) then lift (Py.replace_title plex_name)
  else ret plex_name.

(** ** Reading the documents the claims talk about *)

(** [doc["title_mappings"][show]["special_matches"][episode]], when every
    step of the path is there. *)
Definition special_match (doc : yaml) (show episode : string) : option yaml :=
  match Py.bind (Py.getitem doc "title_mappings") (fun titles =>
        Py.bind (Py.getitem titles show) (fun overrides =>
        Py.bind (Py.getitem overrides "special_matches") (fun matches =>
        Py.getitem matches episode))) with
  | Ok v => Some v
  | Raise _ => None
  end.

Definition section_names : list string :=
  ["mappings"; "trakt_mappings"; "title_mappings"].

(** A valid document: a mapping in which the three sections are present. *)
Definition valid_document (doc : yaml) : bool :=
  match doc with
  | YMap d => forallb (fun k => bool_decide (is_Some (d !! k))) section_names
  | _ => false
  end.

(** The dict [m] after [if k not in m: m[k] = {}]. *)
Definition fill (k : string) (m : gmap string yaml) : gmap string yaml :=
  if bool_decide (is_Some (m !! k)) then m else <[k := Py.empty_dict]> m.

(** The dict [d] after the three [if k not in d: d[k] = {}] statements. *)
Definition backfilled (d : gmap string yaml) : gmap string yaml :=
  fill "title_mappings" (fill "trakt_mappings" (fill "mappings" d)).

(** The dict [c] after the three [if k in c: del c[k]] statements. *)
Definition without_sections (c : gmap string yaml) : gmap string yaml :=
  delete "title_mappings" (delete "trakt_mappings" (delete "mappings" c)).

(** The document [load_mappings] builds from a config dict [c]. *)
Definition from_config (c : gmap string yaml) : yaml :=
  synthesize (default Py.empty_dict (c !! "mappings"))
             (default Py.empty_dict (c !! "trakt_mappings"))
             (default Py.empty_dict (c !! "title_mappings")).

(** The write of the mappings file goes through in [w]. *)
Definition can_write_mappings (w : world) : bool :=
  dir_ok w && mappings_writable w.

(** The exception the write of the mappings file raises in [w] when it
    does not go through. *)
Definition write_error (w : world) : exn :=
  if dir_ok w then
    match mappings_failure w with
    | OpenFails => PermissionError
    | DumpFails _ => OSError
    end
  else PermissionError.

(** The world a write of the mappings file leaves when it does not go
    through. *)
Definition after_failed_write (w : world) : world :=
  if dir_ok w then
    match mappings_failure w with
    | OpenFails => w
    | DumpFails remains =>
        set_file MAPPINGS_FILE (overwrite (mappings_file w) remains) w
    end
  else w.

(** The mappings file after [write_mappings_file doc] ran in [w]. *)
Definition mappings_after_write (doc : yaml) (w : world) : file :=
  if can_write_mappings w then overwrite (mappings_file w) (Some doc)
  else mappings_file (after_failed_write w).

(** A write of the mappings file that does not go through leaves the file
    as it was: the directory cannot be made or the file cannot be opened. *)
Definition mappings_write_clean (w : world) : bool :=
  can_write_mappings w || negb (dir_ok w) ||
  match mappings_failure w with
  | OpenFails => true
  | DumpFails _ => false
  end.

(** The same for the config: it is written, or it cannot be opened. *)
Definition config_write_clean (w : world) : bool :=
  config_writable w ||
  match config_failure w with
  | OpenFails => true
  | DumpFails _ => false
  end.

(** What is written to the file can be read back. *)
Definition reads_back (f : file) : bool :=
  match f with
  | Unreadable _ => false
  | _ => true
  end.

(** The value the text of the file parses to, readable or not. *)
Definition stored (f : file) : option yaml :=
  match f with
  | Content v => Some v
  | Unreadable text => text
  | _ => None
  end.

(** What the migration test of the spec expects of the world after
    [migrate_mappings_from_config] ran in [w], where the config held the
    dict [c] with [mappings: v]: the mappings file holds [mappings: v], the
    config has no [mappings] key, and its other keys are as before. *)
Definition migration_outcome (w : world) (c : gmap string yaml) (v : yaml) : Prop :=
  let w' := snd (migrate_mappings_from_config w) in
  (∃ d, mappings_file w' = Content (YMap d) ∧ d !! "mappings" = Some v) ∧
  (∃ c', config_file w' = Content (YMap c') ∧
         c' !! "mappings" = None ∧
         ∀ k, k ∉ section_names → c' !! k = c !! k).

(** [name] after the two last statements of [get_plex_name]. *)
Definition display_name (name : string) : string :=
  if PyStr.contains "-" name
  then PyStr.title (PyStr.replace PyStr.hyphen PyStr.space name)
  else name.

(** A mappings file that holds [mappings:] with nothing under it. *)
Definition null_section_world : world :=
  mkWorld (Content (YMap {["mappings" := YNull]})) Absent true true true []
          OpenFails OpenFails.

(** A mappings file that maps a name to a number. *)
Definition number_name_world : world :=
  mkWorld (Content (YMap {["mappings" := YMap {["naruto" := YInt 7]}]}))
          Absent true true true []
          OpenFails OpenFails.

(** No mappings file, and a config that holds [mappings:] with nothing
    under it next to an unrelated key. *)
Definition null_config_world : world :=
  mkWorld Absent
          (Content (YMap (<["mappings" := YNull]> {["plex_url" := YStr "u"]})))
          true true true [] OpenFails OpenFails.

(** Both files exist: the mappings file maps [x] to [y], the config maps
    [a] to [b] and holds an unrelated key. *)
Definition both_files_config : gmap string yaml :=
  <["mappings" := YMap {["a" := YStr "b"]}]> {["plex_url" := YStr "u"]}.

Definition both_files_world : world :=
  mkWorld (Content (synthesize (YMap {["x" := YStr "y"]})
                               Py.empty_dict Py.empty_dict))
          (Content (YMap both_files_config))
          true true true [] OpenFails OpenFails.

(** Only the config exists, holding [mappings: {a: b}] and another key. *)
Definition config_only_world : world :=
  mkWorld Absent (Content (YMap both_files_config)) true true true []
          OpenFails OpenFails.

(** The same config next to a mappings file that can be written but not
    read. *)
Definition write_only_world : world :=
  mkWorld (Unreadable None) (Content (YMap both_files_config))
          true true true [] OpenFails OpenFails.

(** A document with the three sections, for the round trips. *)
Definition sample_document : yaml :=
  synthesize (YMap {["x" := YStr "y"]}) Py.empty_dict Py.empty_dict.

(** ** The command line *)



(** ** Reading the results of the operations *)

(** [doc["mappings"][afl_name]], when both steps are there. *)
Definition plex_mapping (doc : yaml) (afl_name : string) : option yaml :=
  match Py.bind (Py.getitem doc "mappings") (fun section =>
        Py.getitem section afl_name) with
  | Ok v => Some v
  | Raise _ => None
  end.

(** The value [v] after the three [if k not in v: v[k] = {}] statements of
    [load_mappings]. *)
Definition backfill (v : yaml) : res yaml :=
  Py.bind (Py.ensure_key "mappings" v) (fun v1 =>
  Py.bind (Py.ensure_key "trakt_mappings" v1) (fun v2 =>
  Py.ensure_key "title_mappings" v2)).

(** The value [v] after the three [if k in v: del v[k]] statements of
    [save_mappings]. *)
Definition strip (v : yaml) : res yaml :=
  Py.bind (Py.remove_key "mappings" v) (fun v1 =>
  Py.bind (Py.remove_key "trakt_mappings" v1) (fun v2 =>
  Py.remove_key "title_mappings" v2)).

(** The document the second half of [load_mappings] returns, by what the
    config file holds. *)
Definition config_document (cf : file) : yaml :=
  match cf with
  | Content (YMap c) => from_config c
  | _ => empty_document
  end.

(** The document [load_mappings] returns, by what the two files hold. *)
Definition document_of (mf cf : file) : yaml :=
  match mf with
  | Content v =>
      match backfill v with
      | Ok doc => doc
      | Raise _ => config_document cf
      end
  | _ => config_document cf
  end.

(** The config file after the inner [try] of [save_mappings], by what it
    held, whether it can be written and how the write fails if not. *)
Definition config_after_update (cf : file) (can_write : bool)
    (how : write_failure) : file :=
  match cf with
  | Content v =>
      match strip v with
      | Ok v' =>
          if can_write then Content v'
          else match how with
               | OpenFails => cf
               | DumpFails remains => overwrite cf remains
               end
      | Raise _ => cf
      end
  | _ => cf
  end.

(** The config file after [save_mappings] ran in [w] with the flag
    [migrate]. *)
Definition config_after_save (migrate : bool) (w : world) : file :=
  if can_write_mappings w && migrate
  then config_after_update (config_file w) (config_writable w)
         (config_failure w)
  else config_file w.

(** The mappings file holds a value the first half of [load_mappings]
    returns a document for. *)
Definition loads_from_file (mf : file) : bool :=
  match mf with
  | Content v =>
      match backfill v with
      | Ok _ => true
      | Raise _ => false
      end
  | _ => false
  end.

(** The document [load_mappings] saves on its way, if it does: the one
    built from a config dict when nothing is loaded from the mappings
    file. *)
Definition saved_on_load (w : world) : option yaml :=
  if loads_from_file (mappings_file w) then None
  else match config_file w with
       | Content (YMap c) => Some (from_config c)
       | _ => None
       end.

(** The two files after [load_mappings] ran in [w]. *)
Definition mappings_after_load (w : world) : file :=
  match saved_on_load w with
  | Some doc => mappings_after_write doc w
  | None => mappings_file w
  end.

Definition config_after_load (w : world) : file :=
  match saved_on_load w with
  | Some _ => config_after_save true w
  | None => config_file w
  end.


Ltac unfold_io :=
  unfold write_mappings_file, makedirs, write_yaml, read_yaml, path_exists,
    logger_info, logger_error, try_except, bind, ret, raise, lift,
    can_write_mappings in *.

(** ** Basic facts about the Python operations *)

Section PyFacts.

Lemma ensure_key_dict k (d : gmap string yaml) :
  Py.ensure_key k (YMap d) = Ok (YMap (fill k d)).
Proof.
  unfold Py.ensure_key, fill; simpl.
  by destruct (bool_decide (is_Some (d !! k))).
Qed.

Lemma remove_key_dict k (c : gmap string yaml) :
  Py.remove_key k (YMap c) = Ok (YMap (delete k c)).
Proof.
  unfold Py.remove_key; simpl. case_bool_decide as Hk; simpl.
  - destruct Hk as [x ->]. done.
  - f_equal. f_equal. symmetry. apply delete_id.
    by apply eq_None_not_Some.
Qed.

Lemma fill_lookup_Some j k (m : gmap string yaml) x :
  m !! k = Some x → fill j m !! k = Some x.
Proof.
  intros Hk. unfold fill. case_bool_decide as Hj; [done |].
  rewrite lookup_insert_ne; [done |]. intros ->. apply Hj. eauto.
Qed.

Lemma fill_lookup_self k (m : gmap string yaml) : is_Some (fill k m !! k).
Proof.
  unfold fill. case_bool_decide as Hk; [done |].
  rewrite lookup_insert_eq. eauto.
Qed.

Lemma fill_is_Some j k (m : gmap string yaml) :
  is_Some (m !! k) → is_Some (fill j m !! k).
Proof. intros [x Hx]. exists x. by apply fill_lookup_Some. Qed.

Lemma fill_present k (m : gmap string yaml) :
  is_Some (m !! k) → fill k m = m.
Proof. intros Hk. unfold fill. by rewrite bool_decide_eq_true_2. Qed.

Lemma backfill_dict (d : gmap string yaml) :
  Py.bind (Py.ensure_key "mappings" (YMap d)) (fun m1 =>
  Py.bind (Py.ensure_key "trakt_mappings" m1) (fun m2 =>
  Py.ensure_key "title_mappings" m2)) = Ok (YMap (backfilled d)).
Proof.
  rewrite ensure_key_dict; simpl. rewrite ensure_key_dict; simpl.
  by rewrite ensure_key_dict.
Qed.

Lemma backfilled_lookup_Some (d : gmap string yaml) k x :
  d !! k = Some x → backfilled d !! k = Some x.
Proof.
  intros Hk. unfold backfilled. by do 3 apply fill_lookup_Some.
Qed.

Lemma backfilled_sections (d : gmap string yaml) k :
  k ∈ section_names → is_Some (backfilled d !! k).
Proof.
  unfold section_names, backfilled. intros Hk.
  set_unfold. destruct Hk as [-> | [-> | [-> | []]]].
  - do 2 apply fill_is_Some. apply fill_lookup_self.
  - apply fill_is_Some. apply fill_lookup_self.
  - apply fill_lookup_self.
Qed.

Lemma backfilled_valid (d : gmap string yaml) :
  valid_document (YMap d) = true → backfilled d = d.
Proof.
  simpl. rewrite !andb_true_iff, !bool_decide_eq_true.
  intros (H1 & H2 & H3 & _). unfold backfilled.
  by rewrite (fill_present _ _ H1), (fill_present _ _ H2), (fill_present _ _ H3).
Qed.

End PyFacts.

(** ** What [save_mappings] does to the world *)

Section SaveFacts.

Lemma overwrite_reads_back f v :
  reads_back f = true → overwrite f (Some v) = Content v.
Proof. by destruct f. Qed.

Lemma write_mappings_file_outcome mappings w :
  write_mappings_file mappings w =
  if can_write_mappings w
  then (Ok tt,
        set_file MAPPINGS_FILE (overwrite (mappings_file w) (Some mappings))
          w)
  else (Raise (write_error w), after_failed_write w).
Proof.
  destruct w as [mf cf [] [] cw lg [|r] cfail]; reflexivity.
Qed.

Lemma save_mappings_plain mappings w :
  save_mappings mappings false w =
  if can_write_mappings w
  then (Ok true,
        add_log (LogInfo InfoSaved)
          (set_file MAPPINGS_FILE
             (overwrite (mappings_file w) (Some mappings)) w))
  else (Ok false,
        add_log (LogError ErrSave (write_error w)) (after_failed_write w)).
Proof.
  destruct w as [mf cf [] [] cw lg [|r] cfail]; reflexivity.
Qed.

Lemma save_mappings_refused mappings migrate w :
  can_write_mappings w = false →
  save_mappings mappings migrate w =
  (Ok false,
   add_log (LogError ErrSave (write_error w)) (after_failed_write w)).
Proof.
  destruct w as [mf cf [] [] cw lg [|r] cfail]; try discriminate;
    reflexivity.
Qed.

(** A write that cannot be opened, or a directory that cannot be made,
    leaves the world as it was. *)
Lemma after_failed_write_clean w :
  can_write_mappings w = false →
  mappings_write_clean w = true →
  after_failed_write w = w.
Proof.
  destruct w as [mf cf [] [] cw lg [|r] cfail]; try discriminate; done.
Qed.

Lemma after_failed_write_frame w :
  config_file (after_failed_write w) = config_file w ∧
  dir_ok (after_failed_write w) = dir_ok w ∧
  mappings_writable (after_failed_write w) = mappings_writable w ∧
  config_writable (after_failed_write w) = config_writable w ∧
  mappings_failure (after_failed_write w) = mappings_failure w ∧
  config_failure (after_failed_write w) = config_failure w ∧
  log (after_failed_write w) = log w.
Proof.
  by destruct w as [mf cf [] mw cw lg [|r] cfail].
Qed.

(** The inner update never raises and leaves the mappings file and the
    I/O outcomes alone. *)
Lemma update_config_frame w :
  ∃ w', update_config w = (Ok tt, w') ∧
        mappings_file w' = mappings_file w ∧
        dir_ok w' = dir_ok w ∧
        mappings_writable w' = mappings_writable w ∧
        config_writable w' = config_writable w ∧
        mappings_failure w' = mappings_failure w ∧
        config_failure w' = config_failure w.
Proof.
  destruct w as [mf cf d mw cw lg mfail cfail].
  unfold update_config, remove_mappings_from_config. unfold_io. simpl.
  destruct cf as [|h| |v]; simpl; eauto 10.
  destruct (Py.remove_key "mappings" v) as [v1|e1]; simpl; eauto 10.
  destruct (Py.remove_key "trakt_mappings" v1) as [v2|e2]; simpl; eauto 10.
  destruct (Py.remove_key "title_mappings" v2) as [v3|e3]; simpl; eauto 10.
  destruct cw; simpl; eauto 10.
  destruct cfail; simpl; eauto 10.
Qed.

Lemma save_mappings_migrate mappings w :
  can_write_mappings w = true →
  save_mappings mappings true w =
  let w1 := add_log (LogInfo InfoSaved)
              (set_file MAPPINGS_FILE
                 (overwrite (mappings_file w) (Some mappings)) w) in
  (Ok true,
   match config_file w with
   | Absent => w1
   | _ => snd (update_config w1)
   end).
Proof.
  destruct w as [mf cf [] [] cw lg mfail cfail]; try discriminate. intros _.
  unfold save_mappings. unfold_io. simpl.
  destruct cf; simpl; try done;
    match goal with
    | |- context [update_config ?x] =>
        by destruct (update_config_frame x) as (w' & -> & _)
    end.
Qed.

(** A readable, writable config dict loses exactly the three sections. *)
Lemma update_config_dict w (c : gmap string yaml) :
  config_file w = Content (YMap c) →
  config_writable w = true →
  update_config w =
  (Ok tt, add_log (LogInfo InfoUpdatedConfig)
            (set_file CONFIG_FILE (Content (YMap (without_sections c))) w)).
Proof.
  destruct w as [mf cf d mw cw lg mfail cfail]; simpl. intros -> ->.
  unfold update_config, remove_mappings_from_config. unfold_io. simpl.
  rewrite remove_key_dict; simpl.
  rewrite remove_key_dict; simpl. by rewrite remove_key_dict.
Qed.

Lemma save_mappings_frame mappings migrate w :
  ∃ b w', save_mappings mappings migrate w = (Ok b, w') ∧
          b = can_write_mappings w ∧
          mappings_file w' = mappings_after_write mappings w ∧
          dir_ok w' = dir_ok w ∧
          mappings_writable w' = mappings_writable w ∧
          config_writable w' = config_writable w ∧
          mappings_failure w' = mappings_failure w ∧
          config_failure w' = config_failure w.
Proof.
  unfold mappings_after_write.
  destruct (can_write_mappings w) eqn:Hcan.
  - destruct migrate.
    + rewrite save_mappings_migrate by done. simpl.
      destruct (config_file w) eqn:Hc; simpl;
        try (exists true; eexists; split_and!; done);
        match goal with
        | |- context [update_config ?x] =>
            destruct (update_config_frame x)
              as (w' & -> & ? & ? & ? & ? & ? & ?)
        end; simpl; exists true; eexists; split_and!; try done.
    + rewrite save_mappings_plain, Hcan.
      exists true; eexists; split_and!; done.
  - rewrite save_mappings_refused by done.
    destruct (after_failed_write_frame w) as (? & ? & ? & ? & ? & ? & ?).
    exists false; eexists; split_and!; done.
Qed.

End SaveFacts.

(** ** What [load_mappings] does to the world *)

Section LoadFacts.

(** Reading the mappings file changes nothing. *)
Lemma load_from_mappings_file_pure w :
  snd (load_from_mappings_file w) = w.
Proof.
  unfold load_from_mappings_file. unfold_io.
  destruct (file_at MAPPINGS_FILE w) as [|h| |v]; simpl; try done.
  destruct (Py.ensure_key "mappings" v) as [v1|]; simpl; [| done].
  destruct (Py.ensure_key "trakt_mappings" v1) as [v2|]; simpl; [| done].
  by destruct (Py.ensure_key "title_mappings" v2).
Qed.

Lemma load_from_mappings_file_dict w (d : gmap string yaml) :
  mappings_file w = Content (YMap d) →
  load_from_mappings_file w = (Ok (YMap (backfilled d)), w).
Proof.
  intros Hm. unfold load_from_mappings_file. unfold_io. cbn [file_at].
  rewrite Hm. do 3 rewrite ensure_key_dict. reflexivity.
Qed.

Lemma load_mappings_dict w (d : gmap string yaml) :
  mappings_file w = Content (YMap d) →
  load_mappings w = (Ok (YMap (backfilled d)), w).
Proof.
  intros Hm. unfold load_mappings.
  unfold bind at 1. unfold path_exists; simpl. rewrite Hm.
  unfold bind at 1. unfold try_except, bind at 1.
  by rewrite (load_from_mappings_file_dict w d Hm).
Qed.

Lemma load_mappings_absent w :
  mappings_file w = Absent →
  load_mappings w = fallback_to_config w.
Proof.
  intros Hm. unfold load_mappings.
  unfold bind at 1. unfold path_exists; simpl. by rewrite Hm.
Qed.

(** An existing mappings file whose load raises [e]: the error is logged
    and the fallback runs. *)
Lemma load_mappings_raised w e :
  mappings_file w ≠ Absent →
  fst (load_from_mappings_file w) = Raise e →
  load_mappings w =
  fallback_to_config (add_log (LogError ErrLoadMappings e) w).
Proof.
  intros Hm He. unfold load_mappings.
  unfold bind at 1. unfold path_exists; simpl.
  destruct (mappings_file w) eqn:Hf; [done | | |];
    unfold bind at 1; unfold try_except, bind at 1;
    pose proof (load_from_mappings_file_pure w) as Hp;
    destruct (load_from_mappings_file w) as [r w']; simpl in *; subst;
    done.
Qed.

Lemma fallback_to_config_dict w (c : gmap string yaml) :
  config_file w = Content (YMap c) →
  fallback_to_config w =
  (Ok (from_config c),
   add_log (LogInfo InfoAutoMigrated)
     (snd (save_mappings (from_config c) true
             (add_log (LogInfo InfoNotFound) w)))).
Proof.
  intros Hc. unfold fallback_to_config, load_from_config.
  unfold bind at 1. unfold logger_info at 1.
  unfold try_except. unfold bind at 1. unfold read_yaml; simpl.
  rewrite Hc. unfold_io. simpl. fold (from_config c).
  destruct (save_mappings_frame (from_config c) true
              (add_log (LogInfo InfoNotFound) w))
    as (b & w' & Hs & _).
  unfold_io. by rewrite Hs.
Qed.

(** The fallback never raises and leaves the I/O outcomes alone. *)
Lemma fallback_to_config_frame w :
  ∃ doc w', fallback_to_config w = (Ok doc, w') ∧
            dir_ok w' = dir_ok w ∧
            mappings_writable w' = mappings_writable w ∧
            config_writable w' = config_writable w ∧
            mappings_failure w' = mappings_failure w ∧
            config_failure w' = config_failure w.
Proof.
  unfold fallback_to_config, load_from_config.
  unfold bind at 1. unfold logger_info at 1.
  unfold try_except. unfold bind at 1. unfold read_yaml; simpl.
  destruct (config_file w) as [|h| |v] eqn:Hc; simpl;
    try (unfold_io; simpl; by eauto 10).
  unfold bind at 1. unfold lift at 1.
  destruct (Py.get v "mappings" Py.empty_dict) as [m|];
    [| unfold_io; simpl; by eauto 10].
  unfold bind at 1. unfold lift at 1.
  destruct (Py.get v "trakt_mappings" Py.empty_dict) as [t|];
    [| unfold_io; simpl; by eauto 10].
  unfold bind at 1. unfold lift at 1.
  destruct (Py.get v "title_mappings" Py.empty_dict) as [ti|];
    [| unfold_io; simpl; by eauto 10].
  unfold bind at 1.
  destruct (save_mappings_frame (synthesize m t ti) true
              (add_log (LogInfo InfoNotFound) w))
    as (b & w' & -> & _ & Hf & Hd & Hmw & Hcw & Hmf & Hcf).
  unfold_io. simpl in *. do 2 eexists. split; [done |].
  simpl. by split_and!.
Qed.

(** [load_mappings] never raises and leaves the I/O outcomes alone. *)
Lemma load_mappings_frame w :
  ∃ doc w', load_mappings w = (Ok doc, w') ∧
            dir_ok w' = dir_ok w ∧
            mappings_writable w' = mappings_writable w ∧
            config_writable w' = config_writable w ∧
            mappings_failure w' = mappings_failure w ∧
            config_failure w' = config_failure w.
Proof.
  destruct (mappings_file w) as [|h| |v] eqn:Hm.
  - rewrite load_mappings_absent by done. apply fallback_to_config_frame.
  - rewrite (load_mappings_raised w PermissionError);
      [| congruence | unfold load_from_mappings_file; unfold_io; simpl;
                      by rewrite Hm].
    apply (fallback_to_config_frame
             (add_log (LogError ErrLoadMappings PermissionError) w)).
  - rewrite (load_mappings_raised w YAMLError);
      [| congruence | unfold load_from_mappings_file; unfold_io; simpl;
                      by rewrite Hm].
    apply (fallback_to_config_frame
             (add_log (LogError ErrLoadMappings YAMLError) w)).
  - pose proof (load_from_mappings_file_pure w) as Hp.
    destruct (load_from_mappings_file w) as [[doc|e] w1] eqn:Hl;
      simpl in Hp; subst w1.
    + exists doc, w. split; [| done].
      unfold load_mappings. unfold bind at 1. unfold path_exists; simpl.
      rewrite Hm. unfold bind at 1. unfold try_except, bind at 1.
      by rewrite Hl.
    + rewrite (load_mappings_raised w e); [| congruence | by rewrite Hl].
      apply (fallback_to_config_frame
               (add_log (LogError ErrLoadMappings e) w)).
Qed.

End LoadFacts.

(** ** Exceptions never leave the guarded operations *)

Section Totality.

Lemma try_except_total {A} (body : M A) (handler : exn → M A) :
  (∀ e w, ∃ a w', handler e w = (Ok a, w')) →
  ∀ w, ∃ a w', try_except body handler w = (Ok a, w').
Proof.
  intros Hh w. unfold try_except.
  destruct (body w) as [[a|e] w1]; eauto.
Qed.

Lemma log_and_return_false m e w :
  ∃ (b : bool) w', (logger_error m e ;;; ret false) w = (Ok b, w').
Proof. unfold_io. eauto. Qed.

Lemma load_mappings_total w :
  ∃ doc w', load_mappings w = (Ok doc, w').
Proof.
  destruct (load_mappings_frame w) as (doc & w' & H & _). eauto.
Qed.

Lemma save_mappings_total mappings migrate w :
  ∃ b w', save_mappings mappings migrate w = (Ok b, w').
Proof.
  destruct (save_mappings_frame mappings migrate w) as (b & w' & H & _).
  eauto.
Qed.

Lemma add_plex_mapping_total afl_name plex_name w :
  ∃ b w', add_plex_mapping afl_name plex_name w = (Ok b, w').
Proof.
  apply try_except_total. intros e w0. apply log_and_return_false.
Qed.

Lemma add_title_mapping_total anime_name episode_title trakt_title w :
  ∃ b w',
    add_title_mapping anime_name episode_title trakt_title w = (Ok b, w').
Proof.
  apply try_except_total. intros e w0. unfold_io. eauto.
Qed.

Lemma migrate_mappings_from_config_total w :
  ∃ b w', migrate_mappings_from_config w = (Ok b, w').
Proof.
  apply try_except_total. intros e w0. apply log_and_return_false.
Qed.

(** Migration is the load followed by the save with the flag set. *)
Lemma migrate_unfold w doc w1 :
  load_mappings w = (Ok doc, w1) →
  migrate_mappings_from_config w = save_mappings doc true w1.
Proof.
  intros Hl. unfold migrate_mappings_from_config, try_except.
  unfold bind at 1. rewrite Hl.
  by destruct (save_mappings_total doc true w1) as (b & w2 & ->).
Qed.

End Totality.

(** ** Sections of the two documents *)

Section SectionFacts.

Lemma fill_lookup_None j k (m : gmap string yaml) :
  m !! k = None →
  fill j m !! k = if bool_decide (k = j) then Some Py.empty_dict else None.
Proof.
  intros Hk. unfold fill. case_bool_decide as Hj.
  - case_bool_decide as Hkj; [| done]. subst. rewrite Hk in Hj.
    by destruct Hj.
  - case_bool_decide as Hkj.
    + subst. by rewrite lookup_insert_eq.
    + by rewrite lookup_insert_ne.
Qed.

Lemma fill_lookup_fresh k (m : gmap string yaml) :
  m !! k = None → fill k m !! k = Some Py.empty_dict.
Proof.
  intros Hk. rewrite fill_lookup_None by done. by rewrite bool_decide_eq_true_2.
Qed.

Lemma fill_lookup_None_ne j k (m : gmap string yaml) :
  m !! k = None → k ≠ j → fill j m !! k = None.
Proof.
  intros Hk Hne. rewrite fill_lookup_None by done.
  by rewrite bool_decide_eq_false_2.
Qed.

Lemma backfilled_lookup_None (d : gmap string yaml) k :
  d !! k = None →
  backfilled d !! k =
  if bool_decide (k ∈ section_names) then Some Py.empty_dict else None.
Proof.
  intros Hk. unfold backfilled.
  destruct (decide (k ∈ section_names)) as [Hin | Hin].
  - rewrite bool_decide_eq_true_2 by done.
    unfold section_names in Hin.
    apply elem_of_cons in Hin as [-> | Hin];
      [| apply elem_of_cons in Hin as [-> | Hin];
         [| apply list_elem_of_singleton in Hin as ->]].
    + apply fill_lookup_Some, fill_lookup_Some. by apply fill_lookup_fresh.
    + apply fill_lookup_Some. apply fill_lookup_fresh.
      by apply fill_lookup_None_ne.
    + apply fill_lookup_fresh.
      apply fill_lookup_None_ne; [| done]. by apply fill_lookup_None_ne.
  - rewrite bool_decide_eq_false_2 by done.
    unfold section_names in Hin.
    repeat apply fill_lookup_None_ne; try done;
      intros ->; apply Hin; set_solver.
Qed.

Lemma without_sections_section (c : gmap string yaml) k :
  k ∈ section_names → without_sections c !! k = None.
Proof.
  unfold section_names, without_sections. intros Hk. set_unfold.
  destruct Hk as [-> | [-> | [-> | []]]];
    rewrite ?lookup_delete_eq; try done;
    repeat (rewrite lookup_delete_ne by done); by rewrite ?lookup_delete_eq.
Qed.

Lemma without_sections_other (c : gmap string yaml) k :
  k ∉ section_names → without_sections c !! k = c !! k.
Proof.
  unfold section_names, without_sections. intros Hk. set_unfold.
  rewrite !lookup_delete_ne; naive_solver.
Qed.

Lemma without_sections_idemp (c : gmap string yaml) :
  without_sections (without_sections c) = without_sections c.
Proof.
  apply map_eq. intros k.
  destruct (decide (k ∈ section_names)) as [Hk | Hk].
  - by rewrite !without_sections_section.
  - by rewrite !without_sections_other.
Qed.

Lemma YMap_inj (m1 m2 : gmap string yaml) : YMap m1 = YMap m2 → m1 = m2.
Proof. intros H. by injection H. Qed.

Lemma from_config_section (c : gmap string yaml) k :
  k ∈ section_names →
  Py.getitem (from_config c) k = Ok (default Py.empty_dict (c !! k)).
Proof.
  unfold section_names. intros Hk. set_unfold.
  destruct Hk as [-> | [-> | [-> | []]]]; reflexivity.
Qed.

(** With both files writable and the config a dict, the save with the
    flag set writes the document and strips the config. *)
Lemma save_mappings_migrate_dict mappings w (c : gmap string yaml) :
  can_write_mappings w = true →
  config_file w = Content (YMap c) →
  config_writable w = true →
  save_mappings mappings true w =
  (Ok true,
   add_log (LogInfo InfoUpdatedConfig)
     (set_file CONFIG_FILE (Content (YMap (without_sections c)))
        (add_log (LogInfo InfoSaved)
           (set_file MAPPINGS_FILE
              (overwrite (mappings_file w) (Some mappings)) w)))).
Proof.
  intros Hcan Hc Hw. rewrite save_mappings_migrate by done. cbv zeta.
  rewrite Hc. by erewrite update_config_dict.
Qed.

End SectionFacts.

Section TitleFacts.

Lemma special_match_Some doc show episode x :
  special_match doc show episode = Some x ↔
  ∃ d t s q : gmap string yaml,
    doc = YMap d ∧
    d !! "title_mappings" = Some (YMap t) ∧
    t !! show = Some (YMap s) ∧
    s !! "special_matches" = Some (YMap q) ∧
    q !! episode = Some x.
Proof.
  unfold special_match. split.
  - destruct doc as [| | | | |d]; try done; simpl.
    destruct (d !! "title_mappings") as [[| | | | |t]|] eqn:Ht; try done;
      simpl.
    destruct (t !! show) as [[| | | | |s]|] eqn:Hs; try done; simpl.
    destruct (s !! "special_matches") as [[| | | | |q]|] eqn:Hq; try done;
      simpl.
    destruct (q !! episode) as [y|] eqn:Hy; [| done].
    intros [= <-]. by exists d, t, s, q.
  - intros (d & t & s & q & -> & Ht & Hs & Hq & Hx). simpl.
    rewrite Ht; simpl. rewrite Hs; simpl. rewrite Hq; simpl. by rewrite Hx.
Qed.

Lemma special_match_backfilled (d : gmap string yaml) show episode x :
  special_match (YMap d) show episode = Some x →
  special_match (YMap (backfilled d)) show episode = Some x.
Proof.
  rewrite !special_match_Some.
  intros (d0 & t & s & q & [= <-] & Ht & Hrest).
  exists (backfilled d), t, s, q. split; [done |].
  split; [by apply backfilled_lookup_Some | done].
Qed.

Lemma setitem_Ok v k x v' :
  Py.setitem v k x = Ok v' →
  ∃ d : gmap string yaml, v = YMap d ∧ v' = YMap (<[k := x]> d).
Proof. destruct v; try done. intros [= <-]. eauto. Qed.

Lemma update_Ok v k f v' :
  Py.update v k f = Ok v' →
  ∃ (d : gmap string yaml) x x',
    v = YMap d ∧ d !! k = Some x ∧ f x = Ok x' ∧
    v' = YMap (<[k := x']> d).
Proof.
  unfold Py.update. destruct v as [| | | | |d]; try done; simpl.
  destruct (d !! k) as [x|] eqn:Hk; [| done]; simpl.
  destruct (f x) as [x'|] eqn:Hf; [| done]; simpl.
  intros [= <-]. by exists d, x, x'.
Qed.

Lemma bind_Ok {A B} (r : res A) (f : A → res B) b :
  Py.bind r f = Ok b → ∃ a, r = Ok a ∧ f a = Ok b.
Proof. destruct r as [a|]; [| done]. simpl. eauto. Qed.

(** Whatever document the four statements start from, when they go
    through the entry is there. *)
Lemma set_special_match_sets show episode title doc doc' :
  set_special_match show episode title doc = Ok doc' →
  special_match doc' show episode = Some (YStr title).
Proof.
  unfold set_special_match. intros H.
  apply bind_Ok in H as (m1 & _ & H).
  apply update_Ok in H as (d1 & tm & tm' & -> & _ & H & ->).
  apply bind_Ok in H as (tm1 & _ & H).
  apply update_Ok in H as (t1 & sh & sh' & -> & _ & H & ->).
  apply bind_Ok in H as (sh1 & _ & H).
  apply update_Ok in H as (s1 & sm & sm' & -> & _ & H & ->).
  apply setitem_Ok in H as (q & -> & ->).
  apply special_match_Some. eexists _, _, _, _. split; [done |].
  by rewrite !lookup_insert_eq.
Qed.

(** On a document where the path to [special_matches] of the show is
    already there, the four statements only set the entry. *)
Lemma set_special_match_existing show episode title
    (d t s q : gmap string yaml) :
  d !! "title_mappings" = Some (YMap t) →
  t !! show = Some (YMap s) →
  s !! "special_matches" = Some (YMap q) →
  set_special_match show episode title (YMap d) =
  Ok (YMap (<["title_mappings" :=
              YMap (<[show :=
                      YMap (<["special_matches" :=
                              YMap (<[episode := YStr title]> q)]> s)]> t)]>
            d)).
Proof.
  intros Ht Hs Hq. unfold set_special_match, Py.ensure_not_none,
    Py.ensure_key, Py.update. simpl.
  repeat first
    [ rewrite Ht | rewrite Hs | rewrite Hq
    | rewrite bool_decide_eq_true_2 by eauto
    | progress simpl ].
  reflexivity.
Qed.

(** [add_title_mapping] returns [True] exactly through a load, the four
    statements going through, and a write that succeeds. *)
Lemma add_title_mapping_true show episode title w w1 :
  add_title_mapping show episode title w = (Ok true, w1) →
  ∃ doc w0 doc',
    load_mappings w = (Ok doc, w0) ∧
    set_special_match show episode title doc = Ok doc' ∧
    can_write_mappings w0 = true ∧
    w1 = add_log (LogInfo InfoSaved)
           (set_file MAPPINGS_FILE
              (overwrite (mappings_file w0) (Some doc')) w0).
Proof.
  unfold add_title_mapping, try_except. unfold bind at 1.
  destruct (load_mappings_total w) as (doc & w0 & Hl). rewrite Hl.
  unfold bind at 1, lift at 1.
  destruct (set_special_match show episode title doc) as [doc'|e] eqn:Hset.
  - rewrite save_mappings_plain.
    destruct (can_write_mappings w0) eqn:Hcan; [| done].
    intros [= <-]. by exists doc, w0, doc'.
  - unfold_io. done.
Qed.

Lemma add_title_mapping_saves show episode title w doc w0 doc' :
  load_mappings w = (Ok doc, w0) →
  set_special_match show episode title doc = Ok doc' →
  can_write_mappings w0 = true →
  add_title_mapping show episode title w =
  (Ok true,
   add_log (LogInfo InfoSaved)
     (set_file MAPPINGS_FILE (overwrite (mappings_file w0) (Some doc')) w0)).
Proof.
  intros Hl Hset Hcan.
  unfold add_title_mapping, try_except. unfold bind at 1. rewrite Hl.
  unfold bind at 1, lift at 1. rewrite Hset.
  by rewrite save_mappings_plain, Hcan.
Qed.

End TitleFacts.

(** A name found in, or defaulted from, the [mappings] section comes back
    through the hyphen rule. *)
Lemma get_plex_name_of_name w afl doc w' (section : gmap string yaml) name :
  load_mappings w = (Ok doc, w') →
  Py.getitem doc "mappings" = Ok (YMap section) →
  default (YStr afl) (section !! afl) = YStr name →
  get_plex_name afl w = (Ok (YStr (display_name name)), w').
Proof.
  intros Hl Hsec Hname. unfold get_plex_name. unfold bind at 1. rewrite Hl.
  destruct doc as [| | | | |d]; try done. simpl in Hsec.
  destruct (d !! "mappings") as [x|] eqn:Hx; [| done].
  injection Hsec as ->.
  unfold_io. simpl. rewrite Hx. simpl. rewrite Hname. simpl.
  unfold display_name.
  by destruct (PyStr.contains "-" name).
Qed.

Section LoadDocument.

Lemma load_from_mappings_file_content w v :
  mappings_file w = Content v →
  load_from_mappings_file w = (backfill v, w).
Proof.
  intros Hm. unfold load_from_mappings_file, backfill. unfold_io.
  cbn [file_at]. rewrite Hm.
  destruct (Py.ensure_key "mappings" v) as [v1|]; simpl; [| done].
  destruct (Py.ensure_key "trakt_mappings" v1) as [v2|]; simpl; [| done].
  by destruct (Py.ensure_key "title_mappings" v2).
Qed.

Lemma load_mappings_from_file w v doc :
  mappings_file w = Content v →
  backfill v = Ok doc →
  load_mappings w = (Ok doc, w).
Proof.
  intros Hm Hb. unfold load_mappings.
  unfold bind at 1. unfold path_exists; simpl. rewrite Hm.
  unfold bind at 1. unfold try_except, bind at 1.
  by rewrite (load_from_mappings_file_content w v Hm), Hb.
Qed.

Lemma load_mappings_file_raised w v e :
  mappings_file w = Content v →
  backfill v = Raise e →
  load_mappings w =
  fallback_to_config (add_log (LogError ErrLoadMappings e) w).
Proof.
  intros Hm Hb. apply load_mappings_raised; [congruence |].
  by rewrite (load_from_mappings_file_content w v Hm), Hb.
Qed.

(** The fallback with a config that is not a readable dict: the error is
    logged and the default document returned; no file is written. *)
Lemma fallback_to_config_default w :
  (∀ c : gmap string yaml, config_file w ≠ Content (YMap c)) →
  ∃ e, fallback_to_config w =
       (Ok empty_document,
        add_log (LogError ErrLoadConfig e) (add_log (LogInfo InfoNotFound) w)).
Proof.
  intros Hc. unfold fallback_to_config, load_from_config.
  unfold bind at 1. unfold logger_info at 1.
  unfold try_except. unfold bind at 1. unfold read_yaml; simpl.
  destruct (config_file w) as [|h| |v] eqn:Hf; simpl;
    try (unfold_io; simpl; by eauto).
  destruct v as [| | | | |c]; try (unfold_io; simpl; by eauto).
  by destruct (Hc c).
Qed.

Lemma fallback_to_config_document w :
  fst (fallback_to_config w) = Ok (config_document (config_file w)).
Proof.
  destruct (config_file w) as [|h| |[| | | | |c]] eqn:Hc;
    try (destruct (fallback_to_config_default w) as [e ->];
         [intros c; congruence | done]).
  by rewrite (fallback_to_config_dict w c Hc).
Qed.

Lemma load_mappings_document w :
  fst (load_mappings w) =
  Ok (document_of (mappings_file w) (config_file w)).
Proof.
  unfold document_of.
  destruct (mappings_file w) as [|h| |v] eqn:Hm.
  - rewrite load_mappings_absent by done. apply fallback_to_config_document.
  - rewrite (load_mappings_raised w PermissionError);
      [| congruence | unfold load_from_mappings_file; unfold_io; simpl;
                      by rewrite Hm].
    apply (fallback_to_config_document
             (add_log (LogError ErrLoadMappings PermissionError) w)).
  - rewrite (load_mappings_raised w YAMLError);
      [| congruence | unfold load_from_mappings_file; unfold_io; simpl;
                      by rewrite Hm].
    apply (fallback_to_config_document
             (add_log (LogError ErrLoadMappings YAMLError) w)).
  - destruct (backfill v) as [doc|e] eqn:Hb.
    + by rewrite (load_mappings_from_file w v doc Hm Hb).
    + rewrite (load_mappings_file_raised w v e Hm Hb).
      apply (fallback_to_config_document
               (add_log (LogError ErrLoadMappings e) w)).
Qed.

End LoadDocument.

Section SectionsPresent.

Lemma ensure_key_contains k v v' :
  Py.ensure_key k v = Ok v' → Py.contains k v' = Ok true.
Proof.
  unfold Py.ensure_key.
  destruct v as [| | |s|l|d]; simpl; try done.
  - destruct (PyStr.contains k s) eqn:Hk; simpl; [| done].
    intros [= <-]. simpl. by rewrite Hk.
  - destruct (existsb (Py.str_eq k) l) eqn:Hk; simpl; [| done].
    intros [= <-]. simpl. by rewrite Hk.
  - case_bool_decide as Hk; simpl; intros [= <-]; simpl.
    + by rewrite bool_decide_eq_true_2.
    + rewrite lookup_insert_eq. by rewrite bool_decide_eq_true_2.
Qed.

Lemma ensure_key_keeps j k v v' :
  Py.ensure_key j v = Ok v' →
  Py.contains k v = Ok true → Py.contains k v' = Ok true.
Proof.
  unfold Py.ensure_key.
  destruct v as [| | |s|l|d]; simpl; try done.
  - destruct (PyStr.contains j s); simpl; [| done]. by intros [= <-].
  - destruct (existsb (Py.str_eq j) l); simpl; [| done]. by intros [= <-].
  - case_bool_decide as Hj; simpl; intros [= <-]; [done |]. simpl.
    intros [= Hk]. apply bool_decide_eq_true in Hk as [x Hx].
    f_equal. apply bool_decide_eq_true.
    destruct (decide (j = k)) as [-> | Hne].
    + rewrite lookup_insert_eq. eauto.
    + rewrite lookup_insert_ne by done. eauto.
Qed.

(** A value that answers the membership test is left as it is. *)
Lemma ensure_key_present k v :
  Py.contains k v = Ok true → Py.ensure_key k v = Ok v.
Proof. unfold Py.ensure_key. by intros ->. Qed.

Lemma backfill_contains v doc k :
  backfill v = Ok doc → k ∈ section_names → Py.contains k doc = Ok true.
Proof.
  unfold backfill, section_names. intros Hb Hk.
  apply bind_Ok in Hb as (v1 & H1 & Hb).
  apply bind_Ok in Hb as (v2 & H2 & H3).
  set_unfold. destruct Hk as [-> | [-> | [-> | []]]].
  - eapply ensure_key_keeps; [exact H3 |].
    eapply ensure_key_keeps; [exact H2 |].
    by eapply ensure_key_contains.
  - eapply ensure_key_keeps; [exact H3 |].
    by eapply ensure_key_contains.
  - by eapply ensure_key_contains.
Qed.

Lemma backfill_fixed doc :
  (∀ k, k ∈ section_names → Py.contains k doc = Ok true) →
  backfill doc = Ok doc.
Proof.
  intros H. unfold backfill.
  rewrite ensure_key_present by (apply H; unfold section_names; set_solver).
  simpl.
  rewrite ensure_key_present by (apply H; unfold section_names; set_solver).
  simpl.
  by rewrite ensure_key_present by (apply H; unfold section_names; set_solver).
Qed.

Lemma config_document_contains cf k :
  k ∈ section_names → Py.contains k (config_document cf) = Ok true.
Proof.
  unfold section_names. intros Hk. set_unfold.
  destruct cf as [|h| |[| | | | |c]];
    destruct Hk as [-> | [-> | [-> | []]]]; reflexivity.
Qed.

Lemma document_of_contains mf cf k :
  k ∈ section_names → Py.contains k (document_of mf cf) = Ok true.
Proof.
  intros Hk. unfold document_of.
  destruct mf as [|h| |v]; try by apply config_document_contains.
  destruct (backfill v) as [doc|e] eqn:Hb.
  - by eapply backfill_contains.
  - by apply config_document_contains.
Qed.

Lemma load_mappings_contains w doc w' k :
  load_mappings w = (Ok doc, w') →
  k ∈ section_names → Py.contains k doc = Ok true.
Proof.
  intros Hl Hk. pose proof (load_mappings_document w) as Hd.
  rewrite Hl in Hd. injection Hd as ->. by apply document_of_contains.
Qed.

Lemma load_mappings_fixed w doc w' :
  load_mappings w = (Ok doc, w') → backfill doc = Ok doc.
Proof.
  intros Hl. apply backfill_fixed. intros k.
  by apply (load_mappings_contains w doc w').
Qed.

End SectionsPresent.

Section ConfigFacts.

Lemma strip_dict (c : gmap string yaml) :
  strip (YMap c) = Ok (YMap (without_sections c)).
Proof.
  unfold strip. rewrite remove_key_dict; simpl.
  rewrite remove_key_dict; simpl. by rewrite remove_key_dict.
Qed.

Lemma remove_key_not_dict k v v' :
  (∀ c : gmap string yaml, v ≠ YMap c) →
  Py.remove_key k v = Ok v' → v' = v.
Proof.
  intros Hv. unfold Py.remove_key.
  destruct v as [| | |s|l|c]; simpl; try done.
  - destruct (PyStr.contains k s); simpl; [done |]. by intros [= <-].
  - destruct (existsb (Py.str_eq k) l); simpl; [done |]. by intros [= <-].
  - by destruct (Hv c).
Qed.

Lemma strip_not_dict v v' :
  (∀ c : gmap string yaml, v ≠ YMap c) → strip v = Ok v' → v' = v.
Proof.
  intros Hv. unfold strip. intros H.
  apply bind_Ok in H as (v1 & H1 & H).
  apply bind_Ok in H as (v2 & H2 & H3).
  apply (remove_key_not_dict _ _ _ Hv) in H1 as ->.
  apply (remove_key_not_dict _ _ _ Hv) in H2 as ->.
  by apply (remove_key_not_dict _ _ _ Hv) in H3 as ->.
Qed.

Lemma strip_idemp v v' : strip v = Ok v' → strip v' = Ok v'.
Proof.
  destruct v as [| | |s|l|c].
  1-5: intros H; pose proof H as H';
       apply strip_not_dict in H' as ->; done.
  rewrite strip_dict. intros [= <-].
  by rewrite strip_dict, without_sections_idemp.
Qed.

Lemma config_after_update_idemp cf cw how :
  cw = true ∨ how = OpenFails →
  config_after_update (config_after_update cf cw how) cw how =
  config_after_update cf cw how.
Proof.
  intros Hclean. unfold config_after_update.
  destruct cf as [|h| |v]; try done.
  destruct (strip v) as [v'|e] eqn:Hs; [| by rewrite Hs].
  destruct Hclean as [-> | ->].
  - by rewrite (strip_idemp v v' Hs).
  - destruct cw; [by rewrite (strip_idemp v v' Hs) | by rewrite Hs].
Qed.

Lemma config_after_update_not_dict cf cw how :
  (∀ c : gmap string yaml, cf ≠ Content (YMap c)) →
  cw = true ∨ how = OpenFails →
  config_after_update cf cw how = cf.
Proof.
  intros Hc Hclean. unfold config_after_update.
  destruct cf as [|h| |v]; try done.
  destruct (strip v) as [v'|e] eqn:Hs; [| done].
  assert (v' = v) as ->.
  { apply strip_not_dict in Hs; [done |]. intros c ->. by destruct (Hc c). }
  destruct Hclean as [-> | ->]; [done | by destruct cw].
Qed.

Lemma config_after_update_dict (c : gmap string yaml) how :
  config_after_update (Content (YMap c)) true how =
  Content (YMap (without_sections c)).
Proof. unfold config_after_update. by rewrite strip_dict. Qed.

Lemma update_config_files w :
  let w' := snd (update_config w) in
  mappings_file w' = mappings_file w ∧
  config_file w' =
  config_after_update (config_file w) (config_writable w) (config_failure w).
Proof.
  destruct w as [mf cf d mw cw lg mfail cfail].
  unfold update_config, remove_mappings_from_config, config_after_update,
    strip.
  unfold_io. simpl.
  destruct cf as [|h| |v]; simpl; try done.
  destruct (Py.remove_key "mappings" v) as [v1|e1]; simpl; try done.
  destruct (Py.remove_key "trakt_mappings" v1) as [v2|e2]; simpl; try done.
  destruct (Py.remove_key "title_mappings" v2) as [v3|e3]; simpl; try done.
  by destruct cw, cfail.
Qed.

Lemma save_mappings_files mappings migrate w :
  let w' := snd (save_mappings mappings migrate w) in
  fst (save_mappings mappings migrate w) = Ok (can_write_mappings w) ∧
  mappings_file w' = mappings_after_write mappings w ∧
  config_file w' = config_after_save migrate w ∧
  can_write_mappings w' = can_write_mappings w ∧
  config_writable w' = config_writable w ∧
  mappings_failure w' = mappings_failure w ∧
  config_failure w' = config_failure w ∧
  dir_ok w' = dir_ok w.
Proof.
  intros w'. subst w'.
  destruct (save_mappings_frame mappings migrate w)
    as (b & w2 & Hs & -> & Hf & Hd & Hmw & Hcw & Hmf & Hcf).
  rewrite Hs. cbn [fst snd]. split_and!; try done.
  - unfold config_after_save.
    destruct (can_write_mappings w) eqn:Hcan; simpl.
    + destruct migrate.
      * rewrite save_mappings_migrate in Hs by done. cbv zeta in Hs.
        injection Hs as <-.
        destruct (config_file w) eqn:Hc; try done;
          match goal with
          | |- context [update_config ?x] =>
              destruct (update_config_files x) as [_ ->]
          end; simpl; by rewrite ?Hc.
      * rewrite save_mappings_plain, Hcan in Hs. by injection Hs as <-.
    + rewrite save_mappings_refused in Hs by done. injection Hs as <-.
      change (config_file (after_failed_write w) = config_file w).
      apply after_failed_write_frame.
  - unfold can_write_mappings. by rewrite Hd, Hmw.
Qed.

(** The log only grows. *)
Lemma update_config_log w :
  ∃ ev, log (snd (update_config w)) = ev :: log w.
Proof.
  destruct w as [mf cf d mw cw lg mfail cfail].
  unfold update_config, remove_mappings_from_config. unfold_io. simpl.
  destruct cf as [|h| |v]; simpl; eauto.
  destruct (Py.remove_key "mappings" v) as [v1|e1]; simpl; eauto.
  destruct (Py.remove_key "trakt_mappings" v1) as [v2|e2]; simpl; eauto.
  destruct (Py.remove_key "title_mappings" v2) as [v3|e3]; simpl; eauto.
  destruct cw, cfail; simpl; eauto.
Qed.

Lemma save_mappings_log mappings migrate w :
  ∃ evs,
    log (snd (save_mappings mappings migrate w)) = (evs ++ log w)%list.
Proof.
  destruct (can_write_mappings w) eqn:Hcan.
  - destruct migrate.
    + rewrite save_mappings_migrate by done. cbv zeta.
      destruct (config_file w); cbn [snd];
        try (destruct (update_config_log
                         (add_log (LogInfo InfoSaved)
                            (set_file MAPPINGS_FILE
                               (overwrite (mappings_file w) (Some mappings))
                               w))) as [ev ->];
             by exists [ev; LogInfo InfoSaved]).
      by exists [LogInfo InfoSaved].
    + rewrite save_mappings_plain, Hcan. by exists [LogInfo InfoSaved].
  - rewrite save_mappings_refused by done. cbn [snd log add_log].
    destruct (after_failed_write_frame w) as (_ & _ & _ & _ & _ & _ & ->).
    by exists [LogError ErrSave (write_error w)].
Qed.

(** The writes look at the files and at the I/O outcomes, not at the
    log. *)
Lemma mappings_after_write_log doc ev w :
  mappings_after_write doc (add_log ev w) = mappings_after_write doc w.
Proof. by destruct w as [mf cf [] [] cw lg [|r] cfail]. Qed.

Lemma config_after_save_log migrate ev w :
  config_after_save migrate (add_log ev w) = config_after_save migrate w.
Proof. done. Qed.

Lemma mappings_after_write_reads_back doc w :
  reads_back (mappings_after_write doc w) = reads_back (mappings_file w).
Proof.
  destruct w as [[|h| |v] cf [] [] cw lg [|[r|]] cfail]; reflexivity.
Qed.

Lemma stored_overwrite f v : stored (overwrite f (Some v)) = Some v.
Proof. by destruct f. Qed.

Lemma config_write_clean_cases w :
  config_write_clean w = true →
  config_writable w = true ∨ config_failure w = OpenFails.
Proof.
  unfold config_write_clean.
  destruct (config_writable w), (config_failure w); auto; discriminate.
Qed.

Lemma mappings_after_write_done doc w :
  can_write_mappings w = true →
  reads_back (mappings_file w) = true →
  mappings_after_write doc w = Content doc.
Proof.
  intros Hcan Hr. unfold mappings_after_write. rewrite Hcan.
  by apply overwrite_reads_back.
Qed.

Lemma mappings_after_write_refused doc w :
  can_write_mappings w = false →
  mappings_write_clean w = true →
  mappings_after_write doc w = mappings_file w.
Proof.
  intros Hcan Hclean. unfold mappings_after_write. rewrite Hcan.
  by rewrite after_failed_write_clean.
Qed.

End ConfigFacts.

Section LoadFiles.

(** What the fallback leaves on disk: with a config dict, what the save
    of the document built from it leaves; otherwise the files as they
    were. *)
Lemma fallback_to_config_files w :
  let w' := snd (fallback_to_config w) in
  match config_file w with
  | Content (YMap c) =>
      mappings_file w' = mappings_after_write (from_config c) w ∧
      config_file w' = config_after_save true w
  | _ => mappings_file w' = mappings_file w ∧ config_file w' = config_file w
  end.
Proof.
  intros w'. subst w'.
  destruct (config_file w) as [|h| |[| | | | |c]] eqn:Hc;
    try (destruct (fallback_to_config_default w) as [e ->];
         [intros c; congruence | done]).
  rewrite (fallback_to_config_dict w c Hc). cbn [snd].
  destruct (save_mappings_files (from_config c) true
              (add_log (LogInfo InfoNotFound) w)) as (_ & Hm & Hcf & _).
  rewrite mappings_after_write_log in Hm.
  rewrite config_after_save_log in Hcf. done.
Qed.

Lemma load_mappings_files w :
  mappings_file (snd (load_mappings w)) = mappings_after_load w ∧
  config_file (snd (load_mappings w)) = config_after_load w.
Proof.
  unfold mappings_after_load, config_after_load, saved_on_load.
  assert (∀ ev,
    load_mappings w = fallback_to_config (add_log ev w) →
    mappings_file (snd (load_mappings w)) =
      match
        match config_file w with
        | Content (YMap c) => Some (from_config c)
        | _ => None
        end
      with
      | Some doc => mappings_after_write doc w
      | None => mappings_file w
      end ∧
    config_file (snd (load_mappings w)) =
      match
        match config_file w with
        | Content (YMap c) => Some (from_config c)
        | _ => None
        end
      with
      | Some _ => config_after_save true w
      | None => config_file w
      end) as Hfall.
  { intros ev ->.
    pose proof (fallback_to_config_files (add_log ev w)) as Hf.
    cbv zeta in Hf. change (config_file (add_log ev w)) with (config_file w)
      in Hf.
    destruct (config_file w) as [|h| |[| | | | |c]]; try done.
    rewrite mappings_after_write_log, config_after_save_log in Hf. done. }
  destruct (mappings_file w) as [|h| |v] eqn:Hm; cbn [loads_from_file].
  - rewrite (load_mappings_absent w Hm).
    pose proof (fallback_to_config_files w) as Hf. cbv zeta in Hf.
    rewrite Hm in Hf.
    by destruct (config_file w) as [|h| |[| | | | |c]].
  - apply (Hfall (LogError ErrLoadMappings PermissionError)).
    apply load_mappings_raised; [congruence |].
    unfold load_from_mappings_file; unfold_io; simpl. by rewrite Hm.
  - apply (Hfall (LogError ErrLoadMappings YAMLError)).
    apply load_mappings_raised; [congruence |].
    unfold load_from_mappings_file; unfold_io; simpl. by rewrite Hm.
  - destruct (backfill v) as [doc|e] eqn:Hb.
    + by rewrite (load_mappings_from_file w v doc Hm Hb).
    + apply (Hfall (LogError ErrLoadMappings e)).
      by apply (load_mappings_file_raised w v).
Qed.

Lemma backfill_from_config (c : gmap string yaml) :
  backfill (from_config c) = Ok (from_config c).
Proof.
  apply backfill_fixed. intros k Hk.
  apply (config_document_contains (Content (YMap c)) k Hk).
Qed.

Lemma backfill_empty_document : backfill empty_document = Ok empty_document.
Proof.
  apply backfill_fixed. intros k Hk.
  apply (config_document_contains Absent k Hk).
Qed.

(** The document comes from the mappings file when that file loads, and
    from the config otherwise. *)
Lemma document_of_file v doc cf :
  backfill v = Ok doc → document_of (Content v) cf = doc.
Proof. intros Hb. unfold document_of. by rewrite Hb. Qed.

Lemma document_of_config mf cf :
  loads_from_file mf = false → document_of mf cf = config_document cf.
Proof.
  unfold loads_from_file, document_of.
  destruct mf as [|h| |v]; try done. by destruct (backfill v).
Qed.

(** The load leaves a mappings file that can be read back as such. *)
Lemma load_mappings_reads_back w :
  reads_back (mappings_file (snd (load_mappings w))) =
  reads_back (mappings_file w).
Proof.
  destruct (load_mappings_files w) as [-> _].
  unfold mappings_after_load. destruct (saved_on_load w); [| done].
  apply mappings_after_write_reads_back.
Qed.

(** With a mappings file that loads, the load changes nothing. *)
Lemma load_mappings_from_file_pure w :
  loads_from_file (mappings_file w) = true →
  snd (load_mappings w) = w.
Proof.
  unfold loads_from_file.
  destruct (mappings_file w) as [|h| |v] eqn:Hm; try done.
  destruct (backfill v) as [doc|e] eqn:Hb; [| done]. intros _.
  by rewrite (load_mappings_from_file w v doc Hm Hb).
Qed.

(** With no mappings file that can be read and no config that parses to a
    dict, the load logs the config error and returns the default
    document; no file is written. *)
Lemma load_mappings_no_sources w :
  (∀ v, mappings_file w ≠ Content v) →
  (∀ c : gmap string yaml, config_file w ≠ Content (YMap c)) →
  ∃ e w0,
    load_mappings w =
    (Ok empty_document,
     add_log (LogError ErrLoadConfig e) (add_log (LogInfo InfoNotFound) w0)) ∧
    mappings_file w0 = mappings_file w ∧
    config_file w0 = config_file w.
Proof.
  intros Hm Hc.
  assert (∃ w0, load_mappings w = fallback_to_config w0 ∧
                mappings_file w0 = mappings_file w ∧
                config_file w0 = config_file w) as (w0 & -> & Hm0 & Hc0).
  { destruct (mappings_file w) as [|h| |v] eqn:Hf.
    - exists w. by rewrite load_mappings_absent.
    - eexists. split; [apply (load_mappings_raised w PermissionError) |];
        [congruence | | done].
      unfold load_from_mappings_file; unfold_io; simpl. by rewrite Hf.
    - eexists. split; [apply (load_mappings_raised w YAMLError) |];
        [congruence | | done].
      unfold load_from_mappings_file; unfold_io; simpl. by rewrite Hf.
    - by destruct (Hm v). }
  destruct (fallback_to_config_default w0) as [e ->].
  { intros c. rewrite Hc0. apply Hc. }
  by exists e, w0.
Qed.

End LoadFiles.

Section MigrateFacts.

Lemma load_mappings_flags w :
  can_write_mappings (snd (load_mappings w)) = can_write_mappings w ∧
  config_writable (snd (load_mappings w)) = config_writable w ∧
  mappings_failure (snd (load_mappings w)) = mappings_failure w ∧
  config_failure (snd (load_mappings w)) = config_failure w ∧
  dir_ok (snd (load_mappings w)) = dir_ok w.
Proof.
  destruct (load_mappings_frame w)
    as (doc & w' & -> & Hd & Hm & Hc & Hmf & Hcf).
  cbn [snd]. unfold can_write_mappings. by rewrite Hd, Hm.
Qed.

Lemma load_mappings_write_clean w :
  mappings_write_clean (snd (load_mappings w)) = mappings_write_clean w.
Proof.
  destruct (load_mappings_flags w) as (Hcan & _ & Hmf & _ & Hd).
  unfold mappings_write_clean. by rewrite Hcan, Hmf, Hd.
Qed.

Lemma migrate_as_save w :
  migrate_mappings_from_config w =
  save_mappings (document_of (mappings_file w) (config_file w)) true
    (snd (load_mappings w)).
Proof.
  pose proof (load_mappings_document w) as Hdoc.
  destruct (load_mappings w) as [r w1] eqn:Hl. cbn [fst snd] in *.
  subst r. by apply migrate_unfold.
Qed.

Lemma migrate_result w :
  fst (migrate_mappings_from_config w) = Ok (can_write_mappings w).
Proof.
  rewrite migrate_as_save.
  destruct (load_mappings_flags w) as [Hcan _].
  destruct (save_mappings_files
              (document_of (mappings_file w) (config_file w)) true
              (snd (load_mappings w))) as (-> & _).
  by rewrite Hcan.
Qed.

(** With a mappings file whose write fails without touching it, the load
    leaves both files as they are. *)
Lemma load_mappings_refused w :
  can_write_mappings w = false →
  mappings_write_clean w = true →
  mappings_file (snd (load_mappings w)) = mappings_file w ∧
  config_file (snd (load_mappings w)) = config_file w.
Proof.
  intros Hcan Hclean. destruct (load_mappings_files w) as [-> ->].
  unfold mappings_after_load, config_after_load, config_after_save.
  rewrite Hcan. destruct (saved_on_load w); [| done].
  by rewrite mappings_after_write_refused.
Qed.

(** Migration in that case leaves them too. *)
Lemma migrate_refused w :
  can_write_mappings w = false →
  mappings_write_clean w = true →
  mappings_file (snd (migrate_mappings_from_config w)) = mappings_file w ∧
  config_file (snd (migrate_mappings_from_config w)) = config_file w.
Proof.
  intros Hno Hclean. rewrite migrate_as_save.
  destruct (load_mappings_flags w) as (Hcan & _).
  pose proof (load_mappings_write_clean w) as Hclean0.
  destruct (load_mappings_refused w Hno Hclean) as [Hm Hc].
  destruct (save_mappings_files
              (document_of (mappings_file w) (config_file w)) true
              (snd (load_mappings w))) as (_ & -> & -> & _).
  unfold config_after_save. rewrite Hcan, Hno.
  rewrite mappings_after_write_refused by congruence. done.
Qed.

End MigrateFacts.

Section PlexFacts.

Lemma plex_mapping_Some doc afl x :
  plex_mapping doc afl = Some x ↔
  ∃ d sec : gmap string yaml,
    doc = YMap d ∧ d !! "mappings" = Some (YMap sec) ∧ sec !! afl = Some x.
Proof.
  unfold plex_mapping. split.
  - destruct doc as [| | | | |d]; try done; simpl.
    destruct (d !! "mappings") as [[| | | | |sec]|] eqn:Hs; try done; simpl.
    destruct (sec !! afl) as [y|] eqn:Hy; [| done].
    intros [= <-]. by exists d, sec.
  - intros (d & sec & -> & Hs & Hx). simpl. rewrite Hs; simpl. by rewrite Hx.
Qed.

(** [add_plex_mapping] after its load: the section test finds the key,
    the entry is set, and the document saved. *)
Lemma add_plex_mapping_after_load afl plex w doc w0 :
  load_mappings w = (Ok doc, w0) →
  add_plex_mapping afl plex w =
  match Py.update doc "mappings"
          (fun section => Py.setitem section afl (YStr plex)) with
  | Ok doc' => save_mappings doc' false w0
  | Raise e => (Ok false, add_log (LogError ErrAddPlex e) w0)
  end.
Proof.
  intros Hl. unfold add_plex_mapping, try_except.
  unfold bind at 1. rewrite Hl.
  unfold bind at 1, lift at 1.
  rewrite ensure_key_present
    by (apply (load_mappings_contains w doc w0 _ Hl);
        unfold section_names; set_solver).
  unfold bind at 1, lift at 1.
  destruct (Py.update doc "mappings" _) as [doc'|e]; [| done].
  by destruct (save_mappings_total doc' false w0) as (b & w2 & ->).
Qed.

Lemma add_plex_mapping_true afl plex w w1 :
  add_plex_mapping afl plex w = (Ok true, w1) →
  ∃ (d sec : gmap string yaml) w0,
    load_mappings w = (Ok (YMap d), w0) ∧
    d !! "mappings" = Some (YMap sec) ∧
    can_write_mappings w0 = true ∧
    w1 = add_log (LogInfo InfoSaved)
           (set_file MAPPINGS_FILE
              (overwrite (mappings_file w0)
                 (Some (YMap (<["mappings" :=
                                 YMap (<[afl := YStr plex]> sec)]> d))))
              w0).
Proof.
  destruct (load_mappings_total w) as (doc & w0 & Hl).
  rewrite (add_plex_mapping_after_load afl plex w doc w0 Hl).
  destruct (Py.update doc "mappings" _) as [doc'|e] eqn:Hu; [| done].
  apply update_Ok in Hu as (d & x & x' & -> & Hx & Hset & ->).
  apply setitem_Ok in Hset as (sec & -> & ->).
  rewrite save_mappings_plain.
  destruct (can_write_mappings w0) eqn:Hcan; [| done].
  intros [= <-]. by exists d, sec, w0.
Qed.

(** Setting a section leaves the membership answers for the three
    sections as they were. *)
Lemma insert_section_contains (d : gmap string yaml) j x k :
  Py.contains k (YMap d) = Ok true →
  Py.contains k (YMap (<[j := x]> d)) = Ok true.
Proof.
  simpl. intros [= Hk]. apply bool_decide_eq_true in Hk as [y Hy].
  f_equal. apply bool_decide_eq_true.
  destruct (decide (j = k)) as [-> | Hne].
  - rewrite lookup_insert_eq. eauto.
  - rewrite lookup_insert_ne by done. eauto.
Qed.

Lemma load_after_section_update w (d : gmap string yaml) w0 j x w1 :
  load_mappings w = (Ok (YMap d), w0) →
  mappings_file w1 = Content (YMap (<[j := x]> d)) →
  load_mappings w1 = (Ok (YMap (<[j := x]> d)), w1).
Proof.
  intros Hl Hfile.
  apply (load_mappings_from_file w1 _ _ Hfile).
  apply backfill_fixed. intros k Hk.
  apply insert_section_contains.
  by apply (load_mappings_contains w (YMap d) w0).
Qed.

End PlexFacts.

Section TitleNull.

Lemma ensure_not_none_not_dict k v :
  (∀ d : gmap string yaml, v ≠ YMap d) →
  Py.ensure_not_none k v = Raise TypeError.
Proof.
  intros Hv. unfold Py.ensure_not_none.
  destruct v as [| | |s|l|d]; simpl; try done.
  - by destruct (PyStr.contains k s).
  - by destruct (existsb (Py.str_eq k) l).
  - by destruct (Hv d).
Qed.

Lemma ensure_not_none_null k (d : gmap string yaml) :
  d !! k = Some YNull →
  Py.ensure_not_none k (YMap d) = Ok (YMap (<[k := Py.empty_dict]> d)).
Proof.
  intros Hk. unfold Py.ensure_not_none. simpl.
  rewrite bool_decide_eq_true_2 by eauto. simpl. by rewrite Hk.
Qed.

Lemma ensure_not_none_dict k (d m : gmap string yaml) :
  d !! k = Some (YMap m) →
  Py.ensure_not_none k (YMap d) = Ok (YMap d).
Proof.
  intros Hk. unfold Py.ensure_not_none. simpl.
  rewrite bool_decide_eq_true_2 by eauto. simpl. by rewrite Hk.
Qed.

Lemma set_special_match_null_titles show ep title (d : gmap string yaml) :
  d !! "title_mappings" = Some YNull →
  ∃ doc', set_special_match show ep title (YMap d) = Ok doc'.
Proof.
  intros Ht. unfold set_special_match, Py.ensure_not_none, Py.ensure_key,
    Py.update. simpl.
  repeat first
    [ rewrite Ht | rewrite lookup_insert_eq | rewrite lookup_empty
    | rewrite bool_decide_eq_true_2 by eauto
    | rewrite bool_decide_eq_false_2 by (by intros [? ?])
    | progress simpl ].
  eauto.
Qed.

Lemma set_special_match_null_matches show ep title
    (d t s0 : gmap string yaml) :
  d !! "title_mappings" = Some (YMap t) →
  t !! show = Some (YMap s0) →
  s0 !! "special_matches" = Some YNull →
  ∃ doc', set_special_match show ep title (YMap d) = Ok doc'.
Proof.
  intros Ht Hs Hq. unfold set_special_match, Py.ensure_not_none,
    Py.ensure_key, Py.update. simpl.
  repeat first
    [ rewrite Ht | rewrite Hs | rewrite Hq | rewrite lookup_insert_eq
    | rewrite bool_decide_eq_true_2 by eauto
    | progress simpl ].
  eauto.
Qed.

Lemma set_special_match_show_not_dict show ep title (d t : gmap string yaml) v :
  d !! "title_mappings" = Some (YMap t) →
  t !! show = Some v →
  (∀ s0 : gmap string yaml, v ≠ YMap s0) →
  set_special_match show ep title (YMap d) = Raise TypeError.
Proof.
  intros Ht Hs Hv.
  pose proof (ensure_not_none_not_dict "special_matches" v Hv) as Hraise.
  unfold set_special_match, Py.ensure_key, Py.update.
  rewrite (ensure_not_none_dict _ _ _ Ht).
  cbn [Py.bind Py.getitem Py.contains]. rewrite Ht.
  cbn [Py.bind Py.getitem Py.contains].
  rewrite bool_decide_eq_true_2 by eauto.
  cbn [negb Py.bind Py.getitem]. rewrite Hs.
  cbn [Py.bind]. by rewrite Hraise.
Qed.

Lemma add_title_mapping_raised show ep title w doc w0 e :
  load_mappings w = (Ok doc, w0) →
  set_special_match show ep title doc = Raise e →
  add_title_mapping show ep title w =
  (Ok false,
   add_log (LogError ErrTraceback e) (add_log (LogError ErrAddTitle e) w0)).
Proof.
  intros Hl Hset.
  unfold add_title_mapping, try_except. unfold bind at 1. rewrite Hl.
  unfold bind at 1, lift at 1. by rewrite Hset.
Qed.

End TitleNull.

Section DisplayFacts.

Lemma cased_not_hyphen (c : ascii) (b : bool) :
  Ascii.eqb "-"
    (if b
     then PyStr.lower (if Ascii.eqb c PyStr.hyphen then PyStr.space else c)
     else PyStr.upper (if Ascii.eqb c PyStr.hyphen then PyStr.space else c))
  = false.
Proof.
  destruct c as [[] [] [] [] [] [] [] []], b; reflexivity.
Qed.

Lemma title_from_replace_no_hyphen b s :
  PyStr.contains "-"
    (PyStr.title_from b (PyStr.replace PyStr.hyphen PyStr.space s)) = false.
Proof.
  revert b. induction s as [|c s IH]; intros b; [done |].
  cbn [PyStr.replace PyStr.title_from PyStr.contains PyStr.starts_with].
  by rewrite cased_not_hyphen, IH.
Qed.

Lemma display_name_no_hyphen name :
  PyStr.contains "-" (display_name name) = false.
Proof.
  unfold display_name.
  destruct (PyStr.contains "-" name) eqn:Hc; [| done].
  apply title_from_replace_no_hyphen.
Qed.

End DisplayFacts.

Section RefusedFacts.

Lemma add_title_mapping_after_load show ep title w doc w0 :
  load_mappings w = (Ok doc, w0) →
  add_title_mapping show ep title w =
  match set_special_match show ep title doc with
  | Ok doc' => save_mappings doc' false w0
  | Raise e =>
      (Ok false,
       add_log (LogError ErrTraceback e)
         (add_log (LogError ErrAddTitle e) w0))
  end.
Proof.
  intros Hl. unfold add_title_mapping, try_except.
  unfold bind at 1. rewrite Hl.
  unfold bind at 1, lift at 1.
  destruct (set_special_match show ep title doc) as [doc'|e]; [| done].
  by destruct (save_mappings_total doc' false w0) as (b & w2 & ->).
Qed.

End RefusedFacts.

(** ** The claims *)

(** C1: the spec has [load_mappings] return the three sections present and
    non-null even when the file maps one to null.  The code backfills only a
    missing key: with [mappings:] left empty in the mappings file, or in the
    config when the mappings file is absent, the returned document maps
    [mappings] to null (the other two sections are filled in). *)
Theorem load_mappings_keeps_null_section :
  (∃ d, load_mappings null_section_world = (Ok (YMap d), null_section_world) ∧
        d !! "mappings" = Some YNull ∧
        d !! "trakt_mappings" = Some Py.empty_dict ∧
        d !! "title_mappings" = Some Py.empty_dict) ∧
  (∃ d, fst (load_mappings null_config_world) = Ok (YMap d) ∧
        d !! "mappings" = Some YNull ∧
        d !! "trakt_mappings" = Some Py.empty_dict ∧
        d !! "title_mappings" = Some Py.empty_dict).
Proof.
  split.
  - eexists. split.
    + apply load_mappings_dict. reflexivity.
    + by vm_compute.
  - eexists. split.
    + unfold null_config_world.
      rewrite load_mappings_absent by done.
      erewrite fallback_to_config_dict by done. reflexivity.
    + by vm_compute.
Qed.

(** C2: [load_mappings], [save_mappings], [add_plex_mapping],
    [add_title_mapping] and [migrate_mappings_from_config] return a value
    on every input, but [get_plex_name], which has no handler, raises:
    [AttributeError] when the loaded [mappings] section is null, and
    [TypeError] when the looked-up name is a number. *)
Theorem get_plex_name_propagates_exception :
  (∀ w, ∃ doc w', load_mappings w = (Ok doc, w')) ∧
  (∀ mappings migrate w,
     ∃ b w', save_mappings mappings migrate w = (Ok b, w')) ∧
  (∀ afl plex w, ∃ b w', add_plex_mapping afl plex w = (Ok b, w')) ∧
  (∀ anime episode title w,
     ∃ b w', add_title_mapping anime episode title w = (Ok b, w')) ∧
  (∀ w, ∃ b w', migrate_mappings_from_config w = (Ok b, w')) ∧
  get_plex_name "naruto" null_section_world =
    (Raise AttributeError, null_section_world) ∧
  get_plex_name "naruto" number_name_world =
    (Raise TypeError, number_name_world).
Proof.
  split_and!.
  - apply load_mappings_total.
  - apply save_mappings_total.
  - apply add_plex_mapping_total.
  - apply add_title_mapping_total.
  - apply migrate_mappings_from_config_total.
  - unfold get_plex_name. unfold bind at 1.
    by rewrite (load_mappings_dict null_section_world _ eq_refl).
  - unfold get_plex_name. unfold bind at 1.
    by rewrite (load_mappings_dict number_name_world _ eq_refl).
Qed.

(** C7: [save_mappings] never raises; it returns [False], with the error
    logged, exactly when the write of the mappings file raises; and when
    the flag is set, the write went through and the rewrite of the existing
    config raises, that error is logged and the result is still [True]. *)
Theorem save_mappings_result mappings migrate w :
  ∃ b w',
    save_mappings mappings migrate w = (Ok b, w') ∧
    (b = false ↔ ∃ e, fst (write_mappings_file mappings w) = Raise e) ∧
    (b = false → ∃ e, log w' = LogError ErrSave e :: log w) ∧
    (∀ w1 e w2,
       migrate = true →
       write_mappings_file mappings w = (Ok tt, w1) →
       config_file w ≠ Absent →
       remove_mappings_from_config (add_log (LogInfo InfoSaved) w1)
         = (Raise e, w2) →
       b = true ∧ w' = add_log (LogError ErrUpdateConfig e) w2).
Proof.
  pose proof (write_mappings_file_outcome mappings w) as Hw.
  destruct (can_write_mappings w) eqn:Hcan.
  - destruct migrate.
    + rewrite save_mappings_migrate by done. cbv zeta.
      exists true; eexists; split; [done |]. split_and!.
      * split; [done |]. intros [e He]. by rewrite Hw in He.
      * done.
      * intros w1 e w2 _ Hw1 Hc Hr. rewrite Hw in Hw1. simplify_eq.
        split; [done |].
        destruct (config_file w); [done | | |];
          unfold update_config, try_except; by rewrite Hr.
    + rewrite save_mappings_plain, Hcan.
      exists true; eexists; split; [done |]. split_and!; try done.
      split; [done |]. intros [e He]. by rewrite Hw in He.
  - rewrite save_mappings_refused by done.
    exists false; eexists; split; [done |]. split_and!.
    + split; [| done]. intros _. rewrite Hw. by eexists.
    + intros _. exists (write_error w). simpl.
      by destruct (after_failed_write_frame w) as (_ & _ & _ & _ & _ & _ & ->).
    + intros w1 e w2 _ Hw1. by rewrite Hw in Hw1.
Qed.

Lemma save_mappings_result_witness :
  ∃ w', save_mappings (from_config both_files_config) true
          (mkWorld Absent (Content (YMap both_files_config))
                   true true false [] OpenFails OpenFails) = (Ok true, w').
Proof.
  destruct (save_mappings_result (from_config both_files_config) true
              (mkWorld Absent (Content (YMap both_files_config))
                       true true false [] OpenFails OpenFails))
    as (b & w' & Hs & _ & _ & Hconfig).
  exists w'. rewrite Hs.
  edestruct Hconfig as [-> _]; [reflexivity | reflexivity | done | | done].
  reflexivity.
Defined.

(** C3: when the mappings file exists but does not parse, [load_mappings]
    logs the error and runs the config fallback; with a config that parses
    to a dict, it builds the document from the three config sections (an
    empty dict for a section the config lacks), saves it with the migration
    flag set, and returns it: where the mappings file can be written it
    then holds that document, and a writable config has lost the three
    sections. *)
Theorem load_mappings_parse_failure w (c : gmap string yaml) :
  mappings_file w = Malformed →
  config_file w = Content (YMap c) →
  let w1 := add_log (LogError ErrLoadMappings YAMLError) w in
  load_mappings w = fallback_to_config w1 ∧
  load_mappings w =
    (Ok (from_config c),
     add_log (LogInfo InfoAutoMigrated)
       (snd (save_mappings (from_config c) true
               (add_log (LogInfo InfoNotFound) w1)))) ∧
  (∀ k, k ∈ section_names →
        Py.getitem (from_config c) k = Ok (default Py.empty_dict (c !! k))) ∧
  LogError ErrLoadMappings YAMLError ∈ log (snd (load_mappings w)) ∧
  (can_write_mappings w = true →
   mappings_file (snd (load_mappings w)) = Content (from_config c) ∧
   (config_writable w = true →
    config_file (snd (load_mappings w)) =
    Content (YMap (without_sections c)))) ∧
  (can_write_mappings w = false →
   config_file (snd (load_mappings w)) = config_file w).
Proof.
  intros Hm Hc w1.
  assert (load_mappings w = fallback_to_config w1) as Hfall.
  { apply load_mappings_raised; [congruence |].
    unfold load_from_mappings_file. unfold_io. cbn [file_at].
    by rewrite Hm. }
  assert (load_mappings w =
    (Ok (from_config c),
     add_log (LogInfo InfoAutoMigrated)
       (snd (save_mappings (from_config c) true
               (add_log (LogInfo InfoNotFound) w1))))) as Hload.
  { rewrite Hfall. by apply fallback_to_config_dict. }
  destruct (load_mappings_files w) as [Hmf Hcf].
  unfold mappings_after_load in Hmf. unfold config_after_load in Hcf.
  unfold saved_on_load in Hmf, Hcf. rewrite Hm, Hc in Hmf, Hcf.
  cbn [loads_from_file] in Hmf, Hcf.
  split_and!; [done | done | apply from_config_section | | |].
  - rewrite Hload. cbn [snd log add_log].
    destruct (save_mappings_log (from_config c) true
                (add_log (LogInfo InfoNotFound) w1)) as [evs ->].
    cbn [log add_log]. subst w1. cbn [log add_log]. set_solver.
  - intros Hcan. split.
    + rewrite Hmf. apply mappings_after_write_done; [done | by rewrite Hm].
    + intros Hcw. rewrite Hcf. unfold config_after_save.
      rewrite Hcan, Hc, Hcw. apply config_after_update_dict.
  - intros Hcan. rewrite Hcf. unfold config_after_save. by rewrite Hcan.
Qed.

Lemma load_mappings_parse_failure_witness :
  let w := mkWorld Malformed (Content (YMap both_files_config))
                   true true true [] OpenFails OpenFails in
  mappings_file (snd (load_mappings w)) =
  Content (from_config both_files_config).
Proof.
  intros w.
  apply (load_mappings_parse_failure w both_files_config);
    reflexivity.
Defined.

(** C10: when the mappings file parses to null, the membership test on the
    null raises [TypeError], so nothing is returned from that file: the
    error is logged and [load_mappings] runs the config fallback, which,
    with a config that parses to a dict, saves the document built from the
    config with the migration flag set; with both files writable the
    mappings file then holds that document and the config has lost the
    three sections. *)
Theorem load_mappings_null_file w (c : gmap string yaml) :
  mappings_file w = Content YNull →
  config_file w = Content (YMap c) →
  let w1 := add_log (LogError ErrLoadMappings TypeError) w in
  Py.contains "mappings" YNull = Raise TypeError ∧
  load_from_mappings_file w = (Raise TypeError, w) ∧
  load_mappings w = fallback_to_config w1 ∧
  load_mappings w =
    (Ok (from_config c),
     add_log (LogInfo InfoAutoMigrated)
       (snd (save_mappings (from_config c) true
               (add_log (LogInfo InfoNotFound) w1)))) ∧
  (can_write_mappings w = true → config_writable w = true →
   mappings_file (snd (load_mappings w)) = Content (from_config c) ∧
   config_file (snd (load_mappings w)) = Content (YMap (without_sections c))).
Proof.
  intros Hm Hc w1.
  assert (load_from_mappings_file w = (Raise TypeError, w)) as Hraise.
  { unfold load_from_mappings_file. unfold_io. cbn [file_at].
    by rewrite Hm. }
  assert (load_mappings w = fallback_to_config w1) as Hfall.
  { apply load_mappings_raised; [congruence | by rewrite Hraise]. }
  assert (load_mappings w =
    (Ok (from_config c),
     add_log (LogInfo InfoAutoMigrated)
       (snd (save_mappings (from_config c) true
               (add_log (LogInfo InfoNotFound) w1))))) as Hload.
  { rewrite Hfall. by apply fallback_to_config_dict. }
  split_and!; try done.
  intros Hcan Hw.
  destruct (load_mappings_files w) as [-> ->].
  unfold mappings_after_load, config_after_load, saved_on_load.
  rewrite Hm, Hc. cbn [loads_from_file]. simpl backfill. cbv iota.
  split.
  - apply mappings_after_write_done; [done | by rewrite Hm].
  - unfold config_after_save. rewrite Hcan, Hc, Hw.
    apply config_after_update_dict.
Qed.

Lemma load_mappings_null_file_witness :
  let w := mkWorld (Content YNull) (Content (YMap both_files_config))
                   true true true [] OpenFails OpenFails in
  load_mappings w =
    fallback_to_config (add_log (LogError ErrLoadMappings TypeError) w).
Proof.
  intros w.
  apply (load_mappings_null_file w both_files_config); reflexivity.
Defined.

(** C9: when the mappings file exists and parses to a dict, migration
    writes that dict back, with an empty dict for each section it lacks,
    whatever the config holds; and a config that is a writable dict still
    loses its three sections. *)
Theorem migrate_keeps_existing_mappings_file w (d : gmap string yaml) :
  mappings_file w = Content (YMap d) →
  can_write_mappings w = true →
  let w' := snd (migrate_mappings_from_config w) in
  fst (migrate_mappings_from_config w) = Ok true ∧
  mappings_file w' = Content (YMap (backfilled d)) ∧
  (∀ k x, d !! k = Some x → backfilled d !! k = Some x) ∧
  (∀ k, d !! k = None →
        backfilled d !! k =
        if bool_decide (k ∈ section_names) then Some Py.empty_dict
        else None) ∧
  (∀ c : gmap string yaml,
     config_file w = Content (YMap c) →
     config_writable w = true →
     config_file w' = Content (YMap (without_sections c)) ∧
     ∀ k, k ∈ section_names → without_sections c !! k = None).
Proof.
  intros Hm Hcan w'. subst w'.
  rewrite (migrate_unfold w _ w (load_mappings_dict w d Hm)).
  destruct (save_mappings_frame (YMap (backfilled d)) true w)
    as (b & w2 & Hs & Hb & Hf & _).
  rewrite Hcan in Hb. subst b.
  rewrite mappings_after_write_done in Hf; [| done | by rewrite Hm].
  split_and!.
  - by rewrite Hs.
  - by rewrite Hs.
  - intros k x. apply backfilled_lookup_Some.
  - apply backfilled_lookup_None.
  - intros c Hc Hw. split; [| apply without_sections_section].
    by erewrite save_mappings_migrate_dict.
Qed.

Lemma migrate_keeps_existing_mappings_file_witness :
  mappings_file (snd (migrate_mappings_from_config both_files_world)) =
  Content (YMap (backfilled
    (<["title_mappings" := Py.empty_dict]>
     (<["trakt_mappings" := Py.empty_dict]>
      (<["mappings" := YMap {["x" := YStr "y"]}]> ∅))))).
Proof.
  apply (migrate_keeps_existing_mappings_file both_files_world);
    reflexivity.
Defined.

(** C8, as stated: with a mappings file that can be written but not read,
    the load after the save falls back to the config, and saving what was
    loaded puts the config's mappings over the document that was saved. *)
Lemma save_load_save_differs_when_write_only :
  valid_document sample_document = true ∧
  let w1 := snd (save_mappings sample_document false write_only_world) in
  stored (mappings_file w1) = Some sample_document ∧
  ∃ loaded w2,
    load_mappings w1 = (Ok loaded, w2) ∧
    stored (mappings_file (snd (save_mappings loaded false w2))) =
      Some (from_config both_files_config) ∧
    mappings_file (snd (save_mappings loaded false w2)) ≠ mappings_file w1.
Proof.
  split; [reflexivity |]. cbv zeta.
  assert (stored (mappings_file
            (snd (save_mappings sample_document false write_only_world))) =
          Some sample_document) as Hfirst by reflexivity.
  split; [exact Hfirst |].
  exists (from_config both_files_config),
    (snd (load_mappings
            (snd (save_mappings sample_document false write_only_world)))).
  split; [by vm_compute |].
  assert (stored (mappings_file
            (snd (save_mappings (from_config both_files_config) false
                    (snd (load_mappings
                            (snd (save_mappings sample_document false
                                    write_only_world))))))) =
          Some (from_config both_files_config)) as Hsecond by by vm_compute.
  split; [exact Hsecond |].
  intros Heq. apply (f_equal stored) in Heq.
  rewrite Hsecond, Hfirst in Heq. apply (inj Some) in Heq.
  apply (f_equal (fun doc => plex_mapping doc "x")) in Heq.
  by vm_compute in Heq.
Qed.

(** C8, amended: for a document in which the three sections are present,
    with a mappings file that can be read back and whose write, when it
    fails, leaves the file as it was, saving the document, loading, and
    saving what was loaded leaves the mappings file as the first save left
    it. *)
Theorem save_load_save_same_file doc w :
  valid_document doc = true →
  reads_back (mappings_file w) = true →
  mappings_write_clean w = true →
  let w1 := snd (save_mappings doc false w) in
  ∃ loaded w2,
    load_mappings w1 = (Ok loaded, w2) ∧
    mappings_file (snd (save_mappings loaded false w2)) = mappings_file w1.
Proof.
  intros Hvalid Hread Hclean w1.
  destruct (save_mappings_files doc false w)
    as (_ & Hm1 & _ & Hcan1 & _ & Hmf1 & _ & Hd1).
  fold w1 in Hm1, Hcan1, Hmf1, Hd1.
  destruct (load_mappings_total w1) as (loaded & w2 & Hl).
  exists loaded, w2. split; [done |].
  destruct (save_mappings_files loaded false w2) as (_ & -> & _).
  pose proof (load_mappings_flags w1) as (Hcan2 & _ & Hmf2 & _ & Hd2).
  pose proof (load_mappings_write_clean w1) as Hclean2.
  rewrite Hl in Hcan2, Hmf2, Hd2, Hclean2. cbn [snd] in *.
  assert (mappings_write_clean w1 = true) as Hclean1.
  { unfold mappings_write_clean. by rewrite Hcan1, Hmf1, Hd1. }
  destruct (can_write_mappings w) eqn:Hcan.
  - rewrite mappings_after_write_done in Hm1 by done.
    destruct doc as [| | | | |d]; try discriminate.
    rewrite (load_mappings_dict w1 d Hm1) in Hl. injection Hl as <- <-.
    rewrite (backfilled_valid d Hvalid).
    rewrite mappings_after_write_done; [done | congruence | by rewrite Hm1].
  - pose proof (load_mappings_refused w1) as Hfiles.
    rewrite Hl in Hfiles. cbn [snd] in Hfiles.
    destruct Hfiles as [Hm2 _]; [congruence | done |].
    rewrite mappings_after_write_refused by congruence. done.
Qed.

Lemma save_load_save_same_file_witness :
  ∃ loaded w2,
    load_mappings (snd (save_mappings (from_config both_files_config) false
                          config_only_world)) = (Ok loaded, w2) ∧
    mappings_file (snd (save_mappings loaded false w2)) =
    mappings_file (snd (save_mappings (from_config both_files_config) false
                          config_only_world)).
Proof.
  apply (save_load_save_same_file (from_config both_files_config)
           config_only_world);
    reflexivity.
Defined.

(** C4: the spec has migration move the config's [mappings: {a: b}] into
    the mappings file.  With a mappings file already there, the code writes
    that file's own content back and still deletes the section from the
    config: migration returns [True] and [{a: b}] is in neither file. *)
Theorem migrate_discards_config_mappings :
  let w' := snd (migrate_mappings_from_config both_files_world) in
  config_file both_files_world = Content (YMap both_files_config) ∧
  both_files_config !! "mappings" = Some (YMap {["a" := YStr "b"]}) ∧
  fst (migrate_mappings_from_config both_files_world) = Ok true ∧
  (∃ d, mappings_file w' = Content (YMap d) ∧
        d !! "mappings" = Some (YMap {["x" := YStr "y"]})) ∧
  (∃ c', config_file w' = Content (YMap c') ∧
         c' !! "mappings" = None ∧
         c' !! "plex_url" = Some (YStr "u")) ∧
  ¬ migration_outcome both_files_world both_files_config
      (YMap {["a" := YStr "b"]}).
Proof.
  cbv zeta.
  assert (∃ d, mappings_file
                 (snd (migrate_mappings_from_config both_files_world)) =
               Content (YMap d) ∧
               d !! "mappings" = Some (YMap {["x" := YStr "y"]}))
    as Hfile.
  { eexists. split; [by vm_compute | by vm_compute]. }
  split_and!; [reflexivity | reflexivity | by vm_compute | exact Hfile | |].
  - eexists. split; [by vm_compute |]. split; by vm_compute.
  - destruct Hfile as (d & Hfile & Hd).
    intros [(d' & Hfile' & Hd') _].
    rewrite Hfile in Hfile'. injection Hfile' as <-.
    rewrite Hd in Hd'. apply (inj Some), YMap_inj in Hd'.
    apply (f_equal (fun m : gmap string yaml => m !! "x")) in Hd'.
    by vm_compute in Hd'.
Qed.

(** C5, as stated: with a mappings file that can be written but not
    read, [add_title_mapping] returns [True] and the following load, which
    falls back to the config, has no such entry. *)
Lemma add_title_mapping_lost_when_write_only :
  let w1 := snd (add_title_mapping "Naruto" "Ep 1" "Enter Naruto"
                   write_only_world) in
  fst (add_title_mapping "Naruto" "Ep 1" "Enter Naruto" write_only_world) =
    Ok true ∧
  ∃ doc, fst (load_mappings w1) = Ok doc ∧
         special_match doc "Naruto" "Ep 1" = None.
Proof.
  cbv zeta. split; [by vm_compute |].
  eexists. split; by vm_compute.
Qed.

(** C5, amended: with a mappings file that can be read back, once
    [add_title_mapping show ep title] has returned [True], [load_mappings]
    returns a document with
    [title_mappings[show]["special_matches"][ep] == title]; a further
    [add_title_mapping show ep2 title2] with another episode then returns
    [True] too, and the document loaded after it holds both entries. *)
Theorem add_title_mapping_recorded w show ep title w1 :
  reads_back (mappings_file w) = true →
  add_title_mapping show ep title w = (Ok true, w1) →
  (∃ doc, load_mappings w1 = (Ok doc, w1) ∧
          special_match doc show ep = Some (YStr title)) ∧
  (∀ ep2 title2, ep2 ≠ ep →
     ∃ w2 doc2,
       add_title_mapping show ep2 title2 w1 = (Ok true, w2) ∧
       load_mappings w2 = (Ok doc2, w2) ∧
       special_match doc2 show ep = Some (YStr title) ∧
       special_match doc2 show ep2 = Some (YStr title2)).
Proof.
  intros Hread Hadd.
  apply add_title_mapping_true in Hadd
    as (doc0 & w0 & doc' & Hl0 & Hset & Hcan & ->).
  assert (reads_back (mappings_file w0) = true) as Hread0.
  { pose proof (load_mappings_reads_back w) as Hr. rewrite Hl0 in Hr.
    cbn [snd] in Hr. congruence. }
  rewrite (overwrite_reads_back _ _ Hread0).
  pose proof (set_special_match_sets _ _ _ _ _ Hset) as Hentry.
  pose proof Hentry as Hpath.
  apply special_match_Some in Hpath as (d & t & s & q & -> & Ht & Hs & Hq & He).
  set (w1 := add_log (LogInfo InfoSaved)
               (set_file MAPPINGS_FILE (Content (YMap d)) w0)).
  assert (mappings_file w1 = Content (YMap d)) as Hfile by done.
  assert (can_write_mappings w1 = true) as Hcan1 by by destruct w0.
  pose proof (load_mappings_dict w1 d Hfile) as Hload.
  split.
  - exists (YMap (backfilled d)). split; [done |].
    by apply special_match_backfilled.
  - intros ep2 title2 Hne.
    pose proof (set_special_match_existing show ep2 title2
                  (backfilled d) t s q
                  (backfilled_lookup_Some d _ _ Ht) Hs Hq) as Hset2.
    rewrite (add_title_mapping_saves _ _ _ _ _ _ _ Hload Hset2 Hcan1).
    rewrite Hfile. cbn [overwrite].
    eexists _, _. split; [reflexivity |]. split.
    + apply load_mappings_dict. reflexivity.
    + split; apply special_match_backfilled, special_match_Some;
        eexists _, _, _, (<[ep2 := YStr title2]> q);
        (split; [reflexivity |]);
        rewrite !lookup_insert_eq; split_and!; try done.
      by rewrite lookup_insert_ne.
Qed.

Lemma add_title_mapping_recorded_witness :
  ∃ doc,
    load_mappings
      (snd (add_title_mapping "Naruto" "Ep 1" "Enter Naruto"
              config_only_world)) =
    (Ok doc,
     snd (add_title_mapping "Naruto" "Ep 1" "Enter Naruto"
            config_only_world)) ∧
    special_match doc "Naruto" "Ep 1" = Some (YStr "Enter Naruto").
Proof.
  apply (add_title_mapping_recorded config_only_world
           "Naruto" "Ep 1" "Enter Naruto");
    [reflexivity | by vm_compute].
Defined.



(** * Further properties of the operations *)

(** X1: every document [load_mappings] returns answers the membership
    test for each of the three section names with [True]; when it is a
    dict, the three keys are there (their values may still be null). *)
Theorem load_mappings_sections_present w :
  ∃ doc w',
    load_mappings w = (Ok doc, w') ∧
    Py.contains "mappings" doc = Ok true ∧
    Py.contains "trakt_mappings" doc = Ok true ∧
    Py.contains "title_mappings" doc = Ok true ∧
    (∀ d : gmap string yaml, doc = YMap d →
       is_Some (d !! "mappings") ∧ is_Some (d !! "trakt_mappings") ∧
       is_Some (d !! "title_mappings")).
Proof.
  destruct (load_mappings_total w) as (doc & w' & Hl).
  exists doc, w'. split; [done |].
  assert (∀ k, k ∈ section_names → Py.contains k doc = Ok true) as Hk
    by (intros k; by apply (load_mappings_contains w doc w')).
  unfold section_names in Hk.
  split_and!; try (apply Hk; set_solver).
  intros d ->. split_and!.
  all: match goal with
       | |- is_Some (?m !! ?k) =>
           assert (Py.contains k (YMap m) = Ok true) as Hc
             by (apply Hk; set_solver);
           simpl in Hc; injection Hc as Hc;
           by apply bool_decide_eq_true in Hc
       end.
Qed.

(** X2: with a mappings file that can be read back and whose write, when
    it fails, leaves the file as it was, loading twice in a row returns the
    same document both times. *)
Theorem load_mappings_repeatable w :
  reads_back (mappings_file w) = true →
  mappings_write_clean w = true →
  fst (load_mappings (snd (load_mappings w))) = fst (load_mappings w).
Proof.
  intros Hread Hclean.
  rewrite (load_mappings_document (snd (load_mappings w))),
    (load_mappings_document w).
  destruct (load_mappings_files w) as [-> ->].
  unfold mappings_after_load, config_after_load, saved_on_load.
  destruct (loads_from_file (mappings_file w)) eqn:Hloads; [done |].
  destruct (config_file w) as [|h| |[| | | | |c]] eqn:Hc; try done.
  rewrite (document_of_config (mappings_file w)) by done.
  cbn [config_document]. f_equal.
  destruct (can_write_mappings w) eqn:Hcan.
  - rewrite mappings_after_write_done by done.
    apply document_of_file, backfill_from_config.
  - rewrite mappings_after_write_refused by done.
    unfold config_after_save. rewrite Hcan. cbn [andb].
    rewrite Hc. by rewrite document_of_config.
Qed.

Lemma load_mappings_repeatable_witness :
  fst (load_mappings (snd (load_mappings config_only_world))) =
  fst (load_mappings config_only_world).
Proof.
  apply (load_mappings_repeatable config_only_world); reflexivity.
Defined.

(** X3: [get_mappings] with no mappings file, a config that parses to a
    dict and both files writable returns the document built from the
    config, and as a side effect creates the mappings file with that
    document and removes the three sections from the config; the next call
    returns the same document and changes nothing. *)
Theorem get_mappings_first_use w (c : gmap string yaml) :
  mappings_file w = Absent →
  config_file w = Content (YMap c) →
  can_write_mappings w = true →
  config_writable w = true →
  let w1 := snd (get_mappings w) in
  fst (get_mappings w) = Ok (from_config c) ∧
  mappings_file w1 = Content (from_config c) ∧
  config_file w1 = Content (YMap (without_sections c)) ∧
  get_mappings w1 = (Ok (from_config c), w1).
Proof.
  intros Hm Hc Hcan Hcw w1. subst w1. unfold get_mappings.
  assert (mappings_file (snd (load_mappings w)) = Content (from_config c))
    as Hm1.
  { destruct (load_mappings_files w) as [-> _].
    unfold mappings_after_load, saved_on_load. rewrite Hm, Hc.
    cbn [loads_from_file].
    apply mappings_after_write_done; [done | by rewrite Hm]. }
  split_and!.
  - rewrite load_mappings_document, Hm, Hc. done.
  - done.
  - destruct (load_mappings_files w) as [_ ->].
    unfold config_after_load, saved_on_load, config_after_save.
    rewrite Hm, Hc, Hcan, Hcw. cbn [loads_from_file andb].
    apply config_after_update_dict.
  - apply (load_mappings_from_file _ (from_config c)); [done |].
    apply backfill_from_config.
Qed.

Lemma get_mappings_first_use_witness :
  mappings_file (snd (get_mappings config_only_world)) =
  Content (from_config both_files_config).
Proof.
  apply (get_mappings_first_use config_only_world both_files_config);
    reflexivity.
Defined.

(** X4: when there is no mappings file that can be read (absent,
    unreadable or not YAML) and the config does not parse to a dict,
    [load_mappings] returns the document with three empty sections, leaves
    both files as they are, and its last log entry is the config error. *)
Theorem load_mappings_default w :
  (∀ v, mappings_file w ≠ Content v) →
  (∀ c : gmap string yaml, config_file w ≠ Content (YMap c)) →
  let w1 := snd (load_mappings w) in
  fst (load_mappings w) = Ok empty_document ∧
  mappings_file w1 = mappings_file w ∧
  config_file w1 = config_file w ∧
  (∃ e, head (log w1) = Some (LogError ErrLoadConfig e)).
Proof.
  intros Hm Hc w1. subst w1.
  destruct (load_mappings_no_sources w Hm Hc) as (e & w0 & -> & Hm0 & Hc0).
  cbn [fst snd]. split_and!; try done. by exists e.
Qed.

Lemma load_mappings_default_witness :
  fst (load_mappings (mkWorld Absent Malformed true true true [] OpenFails OpenFails)) =
  Ok empty_document.
Proof.
  apply (load_mappings_default (mkWorld Absent Malformed true true true [] OpenFails OpenFails));
    discriminate.
Defined.

(** X5: [save_mappings] leaves the config file exactly as it is when the
    flag is off, when the write of the mappings file fails, or when there is
    no config file (it never creates one). *)
Theorem save_mappings_config_untouched mappings migrate w :
  migrate = false ∨ can_write_mappings w = false ∨ config_file w = Absent →
  config_file (snd (save_mappings mappings migrate w)) = config_file w.
Proof.
  intros H.
  destruct (save_mappings_files mappings migrate w) as (_ & _ & -> & _).
  unfold config_after_save.
  destruct H as [-> | [-> | Hc]].
  - by rewrite andb_false_r.
  - done.
  - rewrite Hc. by destruct (_ && _).
Qed.

Lemma save_mappings_config_untouched_witness :
  config_file (snd (save_mappings empty_document false config_only_world)) =
  config_file config_only_world.
Proof.
  apply (save_mappings_config_untouched empty_document false
           config_only_world).
  left. reflexivity.
Defined.

(** X6: whatever the flag, when the rewrite of the config either goes
    through or fails on opening the file, a config that parses to a dict is
    a dict after [save_mappings], holding only entries it held before, and
    every key other than the three sections as before. *)
Theorem save_mappings_config_shrinks mappings migrate w
    (c : gmap string yaml) :
  config_file w = Content (YMap c) →
  config_write_clean w = true →
  ∃ c' : gmap string yaml,
    config_file (snd (save_mappings mappings migrate w)) = Content (YMap c') ∧
    c' ⊆ c ∧
    (∀ k, k ∉ section_names → c' !! k = c !! k).
Proof.
  intros Hc Hclean.
  destruct (save_mappings_files mappings migrate w) as (_ & _ & -> & _).
  unfold config_after_save. rewrite Hc.
  assert (config_after_update (Content (YMap c)) (config_writable w)
            (config_failure w) = Content (YMap (without_sections c)) ∨
          config_after_update (Content (YMap c)) (config_writable w)
            (config_failure w) = Content (YMap c)) as Hupdate.
  { destruct (config_write_clean_cases w Hclean) as [-> | ->].
    - left. apply config_after_update_dict.
    - unfold config_after_update. rewrite strip_dict.
      destruct (config_writable w); auto. }
  destruct (can_write_mappings w && migrate);
    [| exists c; split_and!; done].
  destruct Hupdate as [-> | ->]; [| exists c; split_and!; done].
  exists (without_sections c). split_and!; [done | |].
  - unfold without_sections.
    etrans; [apply delete_subseteq |].
    etrans; [apply delete_subseteq |]. apply delete_subseteq.
  - apply without_sections_other.
Qed.

Lemma save_mappings_config_shrinks_witness :
  ∃ c' : gmap string yaml,
    config_file (snd (save_mappings empty_document true config_only_world)) =
    Content (YMap c') ∧
    c' ⊆ both_files_config ∧
    (∀ k, k ∉ section_names → c' !! k = both_files_config !! k).
Proof.
  apply (save_mappings_config_shrinks empty_document true config_only_world);
    reflexivity.
Defined.

(** X7: after a [save_mappings] of a dict that can write, to a mappings
    file that can be read back, [load_mappings] returns that dict with an
    empty dict for each section it lacks, and changes nothing; a dict that
    has the three sections comes back as it was saved. *)
Theorem save_then_load (d : gmap string yaml) migrate w :
  can_write_mappings w = true →
  reads_back (mappings_file w) = true →
  let w1 := snd (save_mappings (YMap d) migrate w) in
  load_mappings w1 = (Ok (YMap (backfilled d)), w1) ∧
  (valid_document (YMap d) = true →
   load_mappings w1 = (Ok (YMap d), w1)).
Proof.
  intros Hcan Hread w1.
  assert (mappings_file w1 = Content (YMap d)) as Hfile.
  { subst w1.
    destruct (save_mappings_files (YMap d) migrate w) as (_ & -> & _).
    by apply mappings_after_write_done. }
  split.
  - by apply load_mappings_dict.
  - intros Hvalid. pose proof (load_mappings_dict w1 d Hfile) as Hload.
    by rewrite (backfilled_valid d Hvalid) in Hload.
Qed.

Lemma save_then_load_witness :
  load_mappings (snd (save_mappings (YMap both_files_config) true
                        config_only_world)) =
  (Ok (YMap (backfilled both_files_config)),
   snd (save_mappings (YMap both_files_config) true config_only_world)).
Proof.
  apply (save_then_load both_files_config true config_only_world);
    reflexivity.
Defined.

(** X8: [migrate_mappings_from_config] returns [True] exactly when the
    mappings file can be written, whatever the config holds or whether it
    can be read; when it returns [False] because the directory cannot be
    made or the file cannot be opened, both files are as before; when it
    returns [True] the text of the mappings file is the document that
    [load_mappings] returned. *)
Theorem migrate_returns_whether_written w :
  let w' := snd (migrate_mappings_from_config w) in
  fst (migrate_mappings_from_config w) = Ok (can_write_mappings w) ∧
  (can_write_mappings w = false →
   mappings_write_clean w = true →
   mappings_file w' = mappings_file w ∧ config_file w' = config_file w) ∧
  (can_write_mappings w = true →
   ∃ doc, fst (load_mappings w) = Ok doc ∧
          stored (mappings_file w') = Some doc ∧
          (reads_back (mappings_file w) = true →
           mappings_file w' = Content doc)).
Proof.
  intros w'. subst w'. split_and!.
  - apply migrate_result.
  - apply migrate_refused.
  - intros Hyes. eexists. split; [apply load_mappings_document |].
    rewrite migrate_as_save.
    destruct (load_mappings_flags w) as [Hcan _].
    destruct (save_mappings_files
                (document_of (mappings_file w) (config_file w)) true
                (snd (load_mappings w))) as (_ & -> & _).
    unfold mappings_after_write. rewrite Hcan, Hyes. split.
    + apply stored_overwrite.
    + intros Hread. apply overwrite_reads_back.
      by rewrite load_mappings_reads_back.
Qed.

Lemma migrate_returns_whether_written_witness :
  let w := mkWorld Absent (Content (YMap both_files_config))
                   true false true [] OpenFails OpenFails in
  mappings_file (snd (migrate_mappings_from_config w)) = mappings_file w ∧
  config_file (snd (migrate_mappings_from_config w)) = config_file w.
Proof.
  intros w. apply (migrate_returns_whether_written w); reflexivity.
Defined.

(** X9: with a mappings file that can be read back, and writes that
    either go through or fail without touching the file, running the
    migration a second time returns what the first run returned and leaves
    both files as the first run left them. *)
Theorem migrate_twice_same_files w :
  reads_back (mappings_file w) = true →
  mappings_write_clean w = true →
  config_write_clean w = true →
  let w1 := snd (migrate_mappings_from_config w) in
  let w2 := snd (migrate_mappings_from_config w1) in
  fst (migrate_mappings_from_config w1) =
    fst (migrate_mappings_from_config w) ∧
  mappings_file w2 = mappings_file w1 ∧
  config_file w2 = config_file w1.
Proof.
  intros Hread Hclean Hcclean w1 w2. subst w1 w2.
  set (doc := document_of (mappings_file w) (config_file w)).
  set (w0 := snd (load_mappings w)).
  destruct (load_mappings_flags w) as (Hcan & Hcw & Hmf & Hcf & Hd).
  fold w0 in Hcan, Hcw, Hmf, Hcf, Hd.
  pose proof (load_mappings_reads_back w) as Hread0. fold w0 in Hread0.
  pose proof (migrate_as_save w) as Hmig. fold doc w0 in Hmig.
  destruct (save_mappings_files doc true w0)
    as (Hb & Hm1 & Hc1 & Hcan1 & Hcw1 & Hmf1 & Hcf1 & Hd1).
  rewrite <- Hmig in Hb, Hm1, Hc1, Hcan1, Hcw1, Hmf1, Hcf1, Hd1.
  set (w1 := snd (migrate_mappings_from_config w)) in *.
  assert (mappings_write_clean w1 = true) as Hclean1.
  { unfold mappings_write_clean in *.
    by rewrite Hcan1, Hmf1, Hd1, Hcan, Hmf, Hd. }
  rewrite (migrate_result w1), Hb, Hcan1. split; [done |].
  destruct (can_write_mappings w0) eqn:Hyes.
  - (* the file now holds the document that was loaded *)
    rewrite mappings_after_write_done in Hm1 by congruence.
    assert (backfill doc = Ok doc) as Hfix.
    { apply backfill_fixed. intros k. apply document_of_contains. }
    pose proof (load_mappings_from_file w1 doc doc Hm1 Hfix) as Hl1.
    rewrite (migrate_unfold w1 doc w1 Hl1).
    destruct (save_mappings_files doc true w1) as (_ & -> & -> & _).
    split.
    + rewrite mappings_after_write_done; [done | done | by rewrite Hm1].
    + unfold config_after_save in *. rewrite Hcan1, Hyes in *.
      cbn [andb] in *. rewrite Hc1, Hcw1, Hcf1.
      apply config_after_update_idemp.
      destruct (config_write_clean_cases w Hcclean) as [Hw | Hw];
        [left | right]; congruence.
  - apply (migrate_refused w1); [by rewrite Hcan1 | done].
Qed.

Lemma migrate_twice_same_files_witness :
  mappings_file
    (snd (migrate_mappings_from_config
            (snd (migrate_mappings_from_config config_only_world)))) =
  mappings_file (snd (migrate_mappings_from_config config_only_world)).
Proof.
  apply (migrate_twice_same_files config_only_world); reflexivity.
Defined.

(** X10: with no mappings file that can be read and no config that
    parses to a dict, a migration that can write returns [True] and leaves
    the text of three empty sections in the mappings file, which then holds
    that document when it can be read back; the config is as before when
    its rewrite either goes through or fails on opening the file. *)
Theorem migrate_without_sources w :
  (∀ v, mappings_file w ≠ Content v) →
  (∀ c : gmap string yaml, config_file w ≠ Content (YMap c)) →
  can_write_mappings w = true →
  let w' := snd (migrate_mappings_from_config w) in
  fst (migrate_mappings_from_config w) = Ok true ∧
  stored (mappings_file w') = Some empty_document ∧
  (reads_back (mappings_file w) = true →
   mappings_file w' = Content empty_document) ∧
  (config_write_clean w = true → config_file w' = config_file w).
Proof.
  intros Hm Hc Hcan w'. subst w'.
  assert (fst (load_mappings w) = Ok empty_document ∧
          mappings_file (snd (load_mappings w)) = mappings_file w ∧
          config_file (snd (load_mappings w)) = config_file w)
    as (Hdoc & Hm1 & Hc1).
  { by destruct (load_mappings_no_sources w Hm Hc)
      as (e & w0 & -> & ? & ?). }
  rewrite migrate_as_save.
  pose proof (load_mappings_document w) as Hd. rewrite Hdoc in Hd.
  injection Hd as <-.
  destruct (load_mappings_flags w) as (Hcan1 & Hcw1 & _ & Hcf1 & _).
  destruct (save_mappings_files empty_document true (snd (load_mappings w)))
    as (-> & -> & -> & _).
  unfold mappings_after_write, config_after_save.
  rewrite Hcan1, Hcan, Hm1, Hc1, Hcw1, Hcf1. cbn [andb].
  split_and!; [done | apply stored_overwrite | |].
  - intros Hread. by apply overwrite_reads_back.
  - intros Hclean. apply config_after_update_not_dict; [done |].
    by apply config_write_clean_cases.
Qed.

Lemma migrate_without_sources_witness :
  mappings_file (snd (migrate_mappings_from_config
                        (mkWorld Absent Absent true true true []
                                 OpenFails OpenFails))) =
  Content empty_document.
Proof.
  apply (migrate_without_sources
           (mkWorld Absent Absent true true true [] OpenFails OpenFails));
    [discriminate | discriminate | reflexivity | reflexivity].
Defined.

(** X11: with a mappings file that can be read back, once
    [add_plex_mapping afl plex] has returned [True], [load_mappings]
    returns a document with [mappings[afl] == plex] and changes nothing,
    and [get_plex_name afl] returns [plex] through the hyphen rule: [plex]
    itself when it has no hyphen, and, for an ASCII [plex] with a hyphen,
    [plex] with hyphens turned into spaces and title-cased. *)
Theorem add_plex_mapping_recorded afl plex w w1 :
  reads_back (mappings_file w) = true →
  add_plex_mapping afl plex w = (Ok true, w1) →
  (∃ doc, load_mappings w1 = (Ok doc, w1) ∧
          plex_mapping doc afl = Some (YStr plex)) ∧
  (PyStr.contains "-" plex = false →
   get_plex_name afl w1 = (Ok (YStr plex), w1)) ∧
  (PyStr.contains "-" plex = true →
   PyStr.is_ascii plex = true →
   get_plex_name afl w1 =
   (Ok (YStr (PyStr.title (PyStr.replace PyStr.hyphen PyStr.space plex))),
    w1)).
Proof.
  intros Hread Hadd.
  apply add_plex_mapping_true in Hadd as (d & sec & w0 & Hl & Hsec & _ & ->).
  assert (reads_back (mappings_file w0) = true) as Hread0.
  { pose proof (load_mappings_reads_back w) as Hr. rewrite Hl in Hr.
    cbn [snd] in Hr. congruence. }
  rewrite (overwrite_reads_back _ _ Hread0).
  set (w1 := add_log _ _).
  assert (load_mappings w1 =
          (Ok (YMap (<["mappings" := YMap (<[afl := YStr plex]> sec)]> d)),
           w1)) as Hl1
    by by apply (load_after_section_update w d w0).
  assert (get_plex_name afl w1 = (Ok (YStr (display_name plex)), w1))
    as Hname.
  { apply (get_plex_name_of_name w1 afl _ w1 (<[afl := YStr plex]> sec) plex
             Hl1).
    - simpl. by rewrite lookup_insert_eq.
    - by rewrite lookup_insert_eq. }
  unfold display_name in Hname.
  split_and!.
  - eexists. split; [exact Hl1 |].
    apply plex_mapping_Some. eexists _, _. split; [done |].
    by rewrite !lookup_insert_eq.
  - intros Hno. by rewrite Hno in Hname.
  - intros Hyes _. by rewrite Hyes in Hname.
Qed.

Lemma add_plex_mapping_recorded_witness :
  get_plex_name "one-piece"
    (snd (add_plex_mapping "one-piece" "ONE PIECE" config_only_world)) =
  (Ok (YStr "ONE PIECE"),
   snd (add_plex_mapping "one-piece" "ONE PIECE" config_only_world)).
Proof.
  apply (add_plex_mapping_recorded "one-piece" "ONE PIECE" config_only_world);
    [reflexivity | by vm_compute | reflexivity].
Defined.

(** X13: when the mappings file is a dict whose [mappings] value is not a
    dict (null, for one), [add_plex_mapping] returns [False]: the item
    assignment raises [TypeError], which is logged, and nothing is
    written. *)
Theorem add_plex_mapping_section_not_dict afl plex w
    (d : gmap string yaml) v :
  mappings_file w = Content (YMap d) →
  d !! "mappings" = Some v →
  (∀ sec : gmap string yaml, v ≠ YMap sec) →
  add_plex_mapping afl plex w =
  (Ok false, add_log (LogError ErrAddPlex TypeError) w).
Proof.
  intros Hm Hv Hnot.
  rewrite (add_plex_mapping_after_load afl plex w _ w
             (load_mappings_dict w d Hm)).
  unfold Py.update. simpl.
  rewrite (backfilled_lookup_Some d _ _ Hv). simpl.
  destruct v as [| | | | |sec]; try done. by destruct (Hnot sec).
Qed.

Lemma add_plex_mapping_section_not_dict_witness :
  add_plex_mapping "naruto" "Naruto" null_section_world =
  (Ok false, add_log (LogError ErrAddPlex TypeError) null_section_world).
Proof.
  apply (add_plex_mapping_section_not_dict "naruto" "Naruto"
           null_section_world {["mappings" := YNull]} YNull);
    [reflexivity | reflexivity | discriminate].
Defined.

(** X15: [add_title_mapping] goes through when [title_mappings] is null,
    and when [special_matches] of the show is null: with a writable mappings
    file it returns [True] and the file then holds the entry. *)
Theorem add_title_mapping_fills_null show ep title w
    (d : gmap string yaml) :
  mappings_file w = Content (YMap d) →
  can_write_mappings w = true →
  d !! "title_mappings" = Some YNull ∨
  (∃ t s0 : gmap string yaml,
     d !! "title_mappings" = Some (YMap t) ∧
     t !! show = Some (YMap s0) ∧
     s0 !! "special_matches" = Some YNull) →
  ∃ doc' w1,
    add_title_mapping show ep title w = (Ok true, w1) ∧
    mappings_file w1 = Content doc' ∧
    special_match doc' show ep = Some (YStr title).
Proof.
  intros Hm Hcan Hnull.
  pose proof (load_mappings_dict w d Hm) as Hl.
  assert (∃ doc', set_special_match show ep title (YMap (backfilled d)) =
                  Ok doc') as [doc' Hset].
  { destruct Hnull as [Ht | (t & s0 & Ht & Hs & Hq)].
    - apply set_special_match_null_titles.
      by apply backfilled_lookup_Some.
    - apply (set_special_match_null_matches show ep title _ t s0);
        [by apply backfilled_lookup_Some | done | done]. }
  exists doc'. eexists. split.
  - by apply (add_title_mapping_saves show ep title w
                (YMap (backfilled d)) w doc').
  - split; [cbn [mappings_file add_log set_file]; by rewrite Hm |].
    by apply (set_special_match_sets show ep title (YMap (backfilled d))).
Qed.

Lemma add_title_mapping_fills_null_witness :
  ∃ doc' w1,
    add_title_mapping "Naruto" "Ep 1" "Enter Naruto"
      (mkWorld (Content (YMap {["title_mappings" := YNull]})) Absent
               true true true [] OpenFails OpenFails) = (Ok true, w1) ∧
    mappings_file w1 = Content doc' ∧
    special_match doc' "Naruto" "Ep 1" = Some (YStr "Enter Naruto").
Proof.
  apply (add_title_mapping_fills_null "Naruto" "Ep 1" "Enter Naruto"
           (mkWorld (Content (YMap {["title_mappings" := YNull]})) Absent
                    true true true [] OpenFails OpenFails)
           {["title_mappings" := YNull]});
    [reflexivity | reflexivity | left; reflexivity].
Defined.

(** X16: when the entry of the show under [title_mappings] is there but
    is not a dict (null, for one), [add_title_mapping] returns [False] and
    leaves both files as they are. *)
Theorem add_title_mapping_show_not_dict show ep title w
    (d t : gmap string yaml) v :
  mappings_file w = Content (YMap d) →
  d !! "title_mappings" = Some (YMap t) →
  t !! show = Some v →
  (∀ s0 : gmap string yaml, v ≠ YMap s0) →
  let w' := snd (add_title_mapping show ep title w) in
  fst (add_title_mapping show ep title w) = Ok false ∧
  mappings_file w' = mappings_file w ∧
  config_file w' = config_file w.
Proof.
  intros Hm Ht Hs Hv w'. subst w'.
  rewrite (add_title_mapping_raised show ep title w _ w TypeError
             (load_mappings_dict w d Hm)); [done |].
  apply (set_special_match_show_not_dict show ep title _ t v);
    [by apply backfilled_lookup_Some | done | done].
Qed.

Lemma add_title_mapping_show_not_dict_witness :
  fst (add_title_mapping "Naruto" "Ep 1" "Enter Naruto"
         (mkWorld (Content (YMap {["title_mappings" :=
                                     YMap {["Naruto" := YNull]}]}))
                  Absent true true true [] OpenFails OpenFails)) = Ok false.
Proof.
  apply (add_title_mapping_show_not_dict "Naruto" "Ep 1" "Enter Naruto"
           (mkWorld (Content (YMap {["title_mappings" :=
                                       YMap {["Naruto" := YNull]}]}))
                    Absent true true true [] OpenFails OpenFails)
           {["title_mappings" := YMap {["Naruto" := YNull]}]}
           {["Naruto" := YNull]} YNull);
    [reflexivity | reflexivity | reflexivity | discriminate].
Defined.

(** X17: when the write of the mappings file fails because the directory
    cannot be made or the file cannot be opened, [add_plex_mapping],
    [add_title_mapping] and [save_mappings] all return [False] and leave
    both files as they are. *)
Theorem mutators_refused_when_unwritable w :
  can_write_mappings w = false →
  mappings_write_clean w = true →
  (∀ afl plex,
     let w' := snd (add_plex_mapping afl plex w) in
     fst (add_plex_mapping afl plex w) = Ok false ∧
     mappings_file w' = mappings_file w ∧ config_file w' = config_file w) ∧
  (∀ show ep title,
     let w' := snd (add_title_mapping show ep title w) in
     fst (add_title_mapping show ep title w) = Ok false ∧
     mappings_file w' = mappings_file w ∧ config_file w' = config_file w) ∧
  (∀ doc migrate,
     let w' := snd (save_mappings doc migrate w) in
     fst (save_mappings doc migrate w) = Ok false ∧
     mappings_file w' = mappings_file w ∧ config_file w' = config_file w).
Proof.
  intros Hcan Hclean.
  destruct (load_mappings_refused w Hcan Hclean) as (Hm & Hc).
  destruct (load_mappings_flags w) as (Hcan0 & _).
  pose proof (load_mappings_write_clean w) as Hclean0.
  destruct (load_mappings_total w) as (doc & w0 & Hl).
  rewrite Hl in Hm, Hc, Hcan0, Hclean0. cbn [snd] in Hm, Hc, Hcan0, Hclean0.
  rewrite Hcan in Hcan0. rewrite Hclean in Hclean0.
  assert (∀ doc' migrate,
            let w' := snd (save_mappings doc' migrate w0) in
            fst (save_mappings doc' migrate w0) = Ok false ∧
            mappings_file w' = mappings_file w ∧
            config_file w' = config_file w) as Hsave0.
  { intros doc' migrate w'. subst w'.
    rewrite save_mappings_refused by done.
    by rewrite after_failed_write_clean. }
  split_and!.
  - intros afl plex w'. subst w'.
    rewrite (add_plex_mapping_after_load afl plex w doc w0 Hl).
    destruct (Py.update doc "mappings" _) as [doc'|e]; [| done].
    apply Hsave0.
  - intros show ep title w'. subst w'.
    rewrite (add_title_mapping_after_load show ep title w doc w0 Hl).
    destruct (set_special_match show ep title doc) as [doc'|e]; [| done].
    apply Hsave0.
  - intros doc0 migrate w'. subst w'.
    rewrite save_mappings_refused by done.
    by rewrite after_failed_write_clean.
Qed.

Lemma mutators_refused_when_unwritable_witness :
  fst (add_plex_mapping "one-piece" "ONE PIECE"
         (mkWorld Absent (Content (YMap both_files_config))
                  true false true [] OpenFails OpenFails)) = Ok false.
Proof.
  apply (mutators_refused_when_unwritable
           (mkWorld Absent (Content (YMap both_files_config))
                    true false true [] OpenFails OpenFails));
    reflexivity.
Defined.

(** X18: a string returned by [get_plex_name] never contains a hyphen. *)
Theorem get_plex_name_no_hyphen afl w r w' :
  get_plex_name afl w = (Ok (YStr r), w') →
  PyStr.contains "-" r = false.
Proof.
  unfold get_plex_name. unfold bind at 1.
  destruct (load_mappings w) as [[doc|e] w0]; [| done].
  unfold bind at 1, lift at 1.
  destruct (Py.get doc "mappings" Py.empty_dict) as [section|e]; [| done].
  unfold bind at 1, lift at 1.
  destruct (Py.get section afl (YStr afl)) as [plex_name|e]; [| done].
  unfold bind at 1, lift at 1.
  destruct plex_name as [| | |s|l|m]; simpl; try done.
  - destruct (PyStr.contains "-" s) eqn:Hc.
    + unfold lift. simpl. intros [= <- _].
      apply title_from_replace_no_hyphen.
    + unfold ret. by intros [= <- _].
  - by destruct (existsb (Py.str_eq "-") l).
  - by destruct (bool_decide (is_Some (m !! "-"))).
Qed.

Lemma get_plex_name_no_hyphen_witness :
  PyStr.contains "-" "One Piece" = false.
Proof.
  apply (get_plex_name_no_hyphen "one-piece" both_files_world "One Piece"
           both_files_world).
  by vm_compute.
Defined.



(** X20: with no mappings file that loads (none, text that is not YAML,
    or a value the load raises on), both files writable and the mappings
    file readable back, migration run against a config dict that holds
    [mappings: v] returns [True], leaves [mappings: v] in the mappings file,
    removes the [mappings] key from the config and keeps every config key
    other than the three sections. *)
Theorem migrate_moves_mappings w (c : gmap string yaml) v :
  loads_from_file (mappings_file w) = false →
  reads_back (mappings_file w) = true →
  can_write_mappings w = true →
  config_writable w = true →
  config_file w = Content (YMap c) →
  c !! "mappings" = Some v →
  fst (migrate_mappings_from_config w) = Ok true ∧
  migration_outcome w c v.
Proof.
  intros Hloads Hread Hcan Hcw Hc Hv.
  split; [by rewrite migrate_result, Hcan |].
  unfold migration_outcome. rewrite migrate_as_save.
  destruct (load_mappings_flags w) as (Hcan0 & Hcw0 & _ & Hcf0 & _).
  pose proof (load_mappings_reads_back w) as Hread0.
  destruct (load_mappings_files w) as [Hm0 Hc0].
  unfold mappings_after_load in Hm0. unfold config_after_load in Hc0.
  unfold saved_on_load in Hm0, Hc0. rewrite Hloads, Hc in Hm0, Hc0.
  unfold config_after_save in Hc0. rewrite Hcan, Hc, Hcw in Hc0.
  cbn [andb] in Hc0. rewrite config_after_update_dict in Hc0.
  rewrite (document_of_config _ _ Hloads), Hc. cbn [config_document].
  destruct (save_mappings_files (from_config c) true (snd (load_mappings w)))
    as (_ & -> & -> & _).
  rewrite mappings_after_write_done by congruence.
  unfold config_after_save. rewrite Hcan0, Hcan, Hc0, Hcw0, Hcw.
  cbn [andb]. rewrite config_after_update_dict.
  split.
  - eexists. split; [reflexivity |].
    rewrite lookup_insert_ne by done. rewrite lookup_insert_ne by done.
    rewrite lookup_insert_eq. by rewrite Hv.
  - exists (without_sections c). split_and!.
    + by rewrite without_sections_idemp.
    + apply without_sections_section. unfold section_names. set_solver.
    + apply without_sections_other.
Qed.

Lemma migrate_moves_mappings_witness :
  fst (migrate_mappings_from_config config_only_world) = Ok true ∧
  migration_outcome config_only_world both_files_config
    (YMap {["a" := YStr "b"]}).
Proof.
  apply (migrate_moves_mappings config_only_world both_files_config);
    reflexivity.
Defined.
